(** * data-pipe: field mapper, pipeline engine and initial-sync reconciler

    A shallow embedding of [pkg/transform/fieldmapper.go],
    [pkg/pipeline/pipeline.go], [pkg/source/mongodb.go] (initial sync),
    [pkg/sink/postgresql.go] (the parts the reconciler calls) and
    [cmd/data-pipe/main.go], followed by the properties of the
    specification that were checked against them.

    Conventions.
    - A Go [string] is a Rocq [string] (a sequence of bytes).
    - An [error] is its message; [option error] is a possibly-nil error.
    - [map[string]interface{}] is [gmap string value].
    - A channel is the finite sequence of items sent on it before it is
      closed; a goroutine that ranges over a channel is a fold over that
      sequence.
    - What is written to a logger is returned as a list of lines. *)

From Stdlib Require Import ZArith Ascii String List Bool Lia.
From stdpp Require Import base option list gmap strings fin_maps pretty.

Set Warnings "-register-all".
Open Scope string_scope.
Open Scope list_scope.

(** Go's [error], by its message. *)
Definition error : Type := string.

(* ===================================================================== *)
(** ** Package [strings] and [strconv]: the functions the mapper calls   *)
(* ===================================================================== *)

(** The functions of the Go standard library are modelled on bytes.  On
    ASCII input they are the library's functions; the library's Unicode
    case tables and Unicode white space are outside the model (a
    non-ASCII byte is neither a letter nor a space here). *)
Module strings.

Definition bytes (s : string) : list ascii := list_ascii_of_string s.
Definition of_bytes (l : list ascii) : string := string_of_list_ascii l.

Definition isUpper (c : ascii) : bool :=
  (65 <=? nat_of_ascii c)%nat && (nat_of_ascii c <=? 90)%nat.
Definition isLower (c : ascii) : bool :=
  (97 <=? nat_of_ascii c)%nat && (nat_of_ascii c <=? 122)%nat.

Definition toLower (c : ascii) : ascii :=
  if isUpper c then ascii_of_nat (nat_of_ascii c + 32) else c.
Definition toUpper (c : ascii) : ascii :=
  if isLower c then ascii_of_nat (nat_of_ascii c - 32) else c.

(** [asciiSpace]: tab, newline, vertical tab, form feed, return, space. *)
Definition isSpace (c : ascii) : bool :=
  let n := nat_of_ascii c in
  ((9 <=? n)%nat && (n <=? 13)%nat) || (n =? 32)%nat.

Fixpoint ToLower (s : string) : string :=
  match s with
  | EmptyString => EmptyString
  | String c s' => String (toLower c) (ToLower s')
  end.

Fixpoint ToUpper (s : string) : string :=
  match s with
  | EmptyString => EmptyString
  | String c s' => String (toUpper c) (ToUpper s')
  end.

Fixpoint trimLeft (l : list ascii) : list ascii :=
  match l with
  | c :: l' => if isSpace c then trimLeft l' else l
  | [] => []
  end.

Definition trimRight (l : list ascii) : list ascii :=
  rev (trimLeft (rev l)).

Definition TrimSpace (s : string) : string :=
  of_bytes (trimRight (trimLeft (bytes s))).

(** [Fields]: the maximal runs of non-space bytes.  [cur] is the run
    being read, last byte first. *)
Fixpoint fields_go (cur : list ascii) (l : list ascii) : list string :=
  let flush := match cur with [] => [] | _ => [of_bytes (rev cur)] end in
  match l with
  | [] => flush
  | c :: l' =>
      if isSpace c then flush ++ fields_go [] l'
      else fields_go (c :: cur) l'
  end.

Definition Fields (s : string) : list string := fields_go [] (bytes s).

Fixpoint Join (elems : list string) (sep : string) : string :=
  match elems with
  | [] => ""
  | [e] => e
  | e :: rest => e +:+ sep +:+ Join rest sep
  end.

(** [Split s sep] for a one-byte separator, as the mapper calls it. *)
Fixpoint split_go (sep : ascii) (cur : list ascii) (l : list ascii)
  : list string :=
  match l with
  | [] => [of_bytes (rev cur)]
  | c :: l' =>
      if Ascii.eqb c sep then of_bytes (rev cur) :: split_go sep [] l'
      else split_go sep (c :: cur) l'
  end.

Definition Split (s : string) (sep : ascii) : list string :=
  split_go sep [] (bytes s).

End strings.

Module strconv.

(** [ParseBool]: the twelve spellings the library accepts. *)
Definition ParseBool (str : string) : bool * option error :=
  if (str =? "1") || (str =? "t") || (str =? "T")
     || (str =? "true") || (str =? "TRUE") || (str =? "True")
  then (true, None)
  else if (str =? "0") || (str =? "f") || (str =? "F")
     || (str =? "false") || (str =? "FALSE") || (str =? "False")
  then (false, None)
  else (false, Some ("strconv.ParseBool: parsing " +:+ str +:+ ": invalid syntax")).

End strconv.

(* ===================================================================== *)
(** ** The library functions that are taken as given                     *)
(* ===================================================================== *)

(** Package [regexp], the scanning of numbers by [fmt.Sscanf], the
    parsing of dates by [time.Parse] and the printing of floats and
    times are not part of the repository.  The embedding is parametric
    in them; [Reference.lib] below is one implementation, used to run
    the embedding on concrete events. *)
Class GoLib : Type := {
  (** [*regexp.Regexp] *)
  Regexp : Type;
  (** [regexp.Compile(expr)] *)
  regexp_Compile : string -> Regexp + error;
  (** [re.FindStringSubmatch(s)]: [[]] when there is no match, else the
      whole match followed by the text of each capture group. *)
  FindStringSubmatch : Regexp -> string -> list string;
  (** [fmt.Sscanf(s, "%d", &intVal)] *)
  Sscanf_d : string -> Z + error;
  (** [float64], [fmt.Sscanf(s, "%f", &floatVal)] and [%v] of a float *)
  float64 : Type;
  Sscanf_f : string -> float64 + error;
  Sprint_float : float64 -> string;
  (** [time.Time], [time.Parse(layout, s)] and [%v] of a time *)
  Time : Type;
  time_Parse : string -> string -> Time + error;
  Sprint_time : Time -> string;
}.

(* ===================================================================== *)
(** ** Dynamically typed values: [interface{}]                           *)
(* ===================================================================== *)

Section Values.
Context {L : GoLib}.

(** The dynamic types the data model names: null, string, number,
    bool, timestamp and nested mapping. *)
Inductive value : Type :=
| VNil
| VString (s : string)
| VInt (n : Z)
| VFloat (x : float64)
| VBool (b : bool)
| VTime (t : Time)
| VMap (m : gmap string value).

(** [value == nil] *)
Definition is_nil (v : value) : bool :=
  match v with VNil => true | _ => false end.

(** Keys in increasing byte order, as [fmt] prints a map. *)
Fixpoint insert_by_key (kv : string * string) (l : list (string * string))
  : list (string * string) :=
  match l with
  | [] => [kv]
  | kv' :: l' =>
      if String.leb (fst kv) (fst kv') then kv :: l
      else kv' :: insert_by_key kv l'
  end.

Definition sort_by_key (l : list (string * string)) : list (string * string) :=
  foldr insert_by_key [] l.

(** [fmt.Sprintf("%v", value)] *)
Fixpoint Sprintf_v (v : value) : string :=
  match v with
  | VNil => "<nil>"
  | VString s => s
  | VInt n => pretty n
  | VFloat x => Sprint_float x
  | VBool b => if b then "true" else "false"
  | VTime t => Sprint_time t
  | VMap m =>
      let entries := sort_by_key (map_to_list (Sprintf_v <$> m)) in
      "map[" +:+ strings.Join (map (fun kv => fst kv +:+ ":" +:+ snd kv) entries) " " +:+ "]"
  end.

End Values.

Arguments value : clear implicits.
Arguments value {L}.

(* ===================================================================== *)
(** ** Package [pipeline]: events and the capabilities of the engine     *)
(* ===================================================================== *)

Module pipeline.
Section Types.
Context {L : GoLib}.

(** [Event]: a change data capture event.  The field [Source] of the
    Go struct is [Source_] here, [Source] being the interface below. *)
Record Event : Type := {
  ID : string;
  Timestamp : Time;
  Operation : string;
  Source_ : string;
  Database : string;
  Collection : string;
  Data : gmap string value;
  Before : option (gmap string value);
}.

(** [event.Data = newData] *)
Definition set_Data (event : Event) (newData : gmap string value) : Event :=
  {| ID := ID event; Timestamp := Timestamp event;
     Operation := Operation event; Source_ := Source_ event;
     Database := Database event; Collection := Collection event;
     Data := newData; Before := Before event |}.

(** [event.ID = id] *)
Definition set_ID (event : Event) (id : string) : Event :=
  {| ID := id; Timestamp := Timestamp event;
     Operation := Operation event; Source_ := Source_ event;
     Database := Database event; Collection := Collection event;
     Data := Data event; Before := Before event |}.

(** [Source]: what a source does when it is called.  [Read] gives the
    events and the errors the source sends before it closes its two
    channels. *)
Record Source : Type := {
  Source_Connect : option error;
  Source_Read : list Event * list error;
  Source_Close : option error;
}.

(** [Sink]: [Write] gives the errors the sink sends, from the events
    it receives, before it closes its error channel. *)
Record Sink : Type := {
  Sink_Connect : option error;
  Sink_Write : list Event -> list error;
  Sink_Close : option error;
}.

(** [Transformer]: [Transform(event) (Event, error)] *)
Record Transformer : Type := {
  Transform : Event -> Event * option error;
}.

(** What a run does besides returning: lines written to the logger,
    calls on the metrics recorder (durations left out) and the calls
    of [Close]. *)
Inductive effect : Type :=
| Log (line : string)
| SetPipelineRunning (running : bool)
| SetSourceConnected (connected : bool)
| SetSinkConnected (connected : bool)
| RecordEventError (component errorType : string)
| RecordEventProcessed (operation : string)
| RecordProcessingDuration (component : string)
| CloseSource
| CloseSink.

(** [Pipeline]; [transformer] and [metrics] may be nil. *)
Record Pipeline : Type := {
  name : string;
  source : Source;
  sink : Sink;
  transformer : option Transformer;
  metrics : bool;
}.

(** [New] creates a new pipeline; no metrics recorder is set. *)
Definition New (name : string) (source : Source) (sink : Sink)
    (transformer : option Transformer) : Pipeline :=
  {| name := name; source := source; sink := sink;
     transformer := transformer; metrics := false |}.

Definition SetMetrics (p : Pipeline) : Pipeline :=
  {| name := name p; source := source p; sink := sink p;
     transformer := transformer p; metrics := true |}.

(** [if p.metrics != nil { ... }] *)
Definition ifMetrics (p : Pipeline) (calls : list effect) : list effect :=
  if metrics p then calls else [].

(** The goroutine between [events] and [transformedEvents]: the events
    it sends on, and what it logs and records, in order. *)
Fixpoint transformWorker (p : Pipeline) (events : list Event)
  : list Event * list effect :=
  match events with
  | [] => ([], [])
  | event :: rest =>
      let '(sent, effects) := transformWorker p rest in
      match transformer p with
      | Some t =>
          match Transform t event with
          | (_, Some err) =>
              (* continue: the event is not sent *)
              (sent,
               Log ("Error transforming event: " +:+ err)
               :: ifMetrics p [RecordEventError "transformer" "transform_error"]
               ++ effects)
          | (transformed, None) =>
              (transformed :: sent,
               ifMetrics p [RecordProcessingDuration "transform";
                            RecordEventProcessed (Operation transformed)]
               ++ effects)
          end
      | None =>
          (event :: sent,
           ifMetrics p [RecordEventProcessed (Operation event)] ++ effects)
      end
  end.

(** The two goroutines that range over the error channels. *)
Definition drainSourceErrors (p : Pipeline) (sourceErrors : list error)
  : list effect :=
  flat_map (fun err => Log ("Source error: " +:+ err)
                       :: ifMetrics p [RecordEventError "source" "read_error"])
           sourceErrors.

Definition drainSinkErrors (p : Pipeline) (sinkErrors : list error)
  : list effect :=
  flat_map (fun err => Log ("Sink error: " +:+ err)
                       :: ifMetrics p [RecordEventError "sink" "write_error"])
           sinkErrors.

(** A run of [Run]: the error returned, the events handed to
    [Sink.Write], and the effects of each goroutine.  [deferred] are
    the effects of the deferred calls, in the order they run. *)
Record RunOutcome : Type := {
  returned : option error;
  toSink : list Event;
  mainEffects : list effect;
  transformEffects : list effect;
  sourceDrainEffects : list effect;
  sinkDrainEffects : list effect;
  deferred : list effect;
}.

(** [Run] starts the pipeline. *)
Definition Run (p : Pipeline) : RunOutcome :=
  let starting :=
    Log ("Starting pipeline: " +:+ name p) :: ifMetrics p [SetPipelineRunning true] in
  let stopRunning := ifMetrics p [SetPipelineRunning false] in
  (* Connect source *)
  match Source_Connect (source p) with
  | Some err =>
      {| returned := Some ("failed to connect source: " +:+ err);
         toSink := [];
         mainEffects :=
           starting ++ ifMetrics p [RecordEventError "source" "connection_error";
                                    SetSourceConnected false];
         transformEffects := []; sourceDrainEffects := []; sinkDrainEffects := [];
         deferred := stopRunning |}
  | None =>
      let sourceUp :=
        ifMetrics p [SetSourceConnected true;
                     RecordProcessingDuration "source_connect"] in
      let closeSource := CloseSource :: ifMetrics p [SetSourceConnected false] in
      (* Connect sink *)
      match Sink_Connect (sink p) with
      | Some err =>
          {| returned := Some ("failed to connect sink: " +:+ err);
             toSink := [];
             mainEffects :=
               starting ++ sourceUp
               ++ ifMetrics p [RecordEventError "sink" "connection_error";
                               SetSinkConnected false];
             transformEffects := []; sourceDrainEffects := [];
             sinkDrainEffects := [];
             deferred := closeSource ++ stopRunning |}
      | None =>
          let sinkUp :=
            ifMetrics p [SetSinkConnected true;
                         RecordProcessingDuration "sink_connect"] in
          let closeSink := CloseSink :: ifMetrics p [SetSinkConnected false] in
          (* Start reading from source *)
          let '(events, sourceErrors) := Source_Read (source p) in
          (* Transform events if transformer is provided *)
          let '(transformedEvents, transformEffects) := transformWorker p events in
          (* Write to sink *)
          let sinkErrors := Sink_Write (sink p) transformedEvents in
          (* Handle errors; wg.Wait() *)
          {| returned := None;
             toSink := transformedEvents;
             mainEffects :=
               starting ++ sourceUp ++ sinkUp
               ++ [Log ("Pipeline stopped: " +:+ name p)];
             transformEffects := transformEffects;
             sourceDrainEffects := drainSourceErrors p sourceErrors;
             sinkDrainEffects := drainSinkErrors p sinkErrors;
             deferred := closeSink ++ closeSource ++ stopRunning |}
      end
  end.

End Types.
End pipeline.

(* ===================================================================== *)
(** ** Package [transform]: the field mapper                             *)
(* ===================================================================== *)

Module transform.
Section FieldMapper.
Context {L : GoLib}.

(** [FieldMapping] defines how to map a single field. *)
Record FieldMapping : Type := {
  Source : string;
  Destination : string;
  Format : string;
  Default : string;
  Required : bool;
  Extract : string;
  NestedPath : string;
}.

Record FieldMapperConfig : Type := {
  Mappings : list FieldMapping;
  IncludeAll : bool;
  ExcludeFields : list string;
  StrictMode : bool;
}.

(** [FieldMapper]; the extractors are keyed by source field name. *)
Record FieldMapper : Type := {
  config : FieldMapperConfig;
  extractors : gmap string Regexp;
}.

(** The loop of [NewFieldMapperWithLogger] that compiles the patterns. *)
Fixpoint compileExtractors (mappings : list FieldMapping)
    (extractors : gmap string Regexp) : gmap string Regexp + error :=
  match mappings with
  | [] => inl extractors
  | mapping :: rest =>
      if negb (Extract mapping =? "") then
        match regexp_Compile (Extract mapping) with
        | inr err =>
            inr ("invalid extract pattern for field " +:+ Source mapping
                 +:+ ": " +:+ err)
        | inl re =>
            compileExtractors rest (<[Source mapping := re]> extractors)
        end
      else compileExtractors rest extractors
  end.

Definition NewFieldMapperWithLogger (config : FieldMapperConfig)
  : FieldMapper + error :=
  match compileExtractors (Mappings config) ∅ with
  | inr err => inr err
  | inl extractors => inl {| config := config; extractors := extractors |}
  end.

Definition NewFieldMapper (config : FieldMapperConfig) : FieldMapper + error :=
  NewFieldMapperWithLogger config.

(** The walk of [getFieldValue] along the parts of a nested path. *)
Fixpoint walkPath (parts : list string) (current : value) : value * bool :=
  match parts with
  | [] => (current, true)
  | part :: rest =>
      match current with
      | VMap currentMap =>
          match currentMap !! part with
          | Some next => walkPath rest next
          | None => (VNil, false)
          end
      | _ => (VNil, false)
      end
  end.

Definition getFieldValue (data : gmap string value) (source : string)
    (nestedPath : string) : value * bool :=
  if nestedPath =? "" then
    match data !! source with
    | Some v => (v, true)
    | None => (VNil, false)
    end
  else walkPath (strings.Split nestedPath ".") (VMap data).

(** The layouts the [date] format tries, in this order. *)
Definition RFC3339 : string := "2006-01-02T15:04:05Z07:00".
Definition dateLayouts : list string :=
  [RFC3339; "2006-01-02T15:04:05Z07:00"; "2006-01-02 15:04:05"; "2006-01-02"].

Fixpoint parseDate (layouts : list string) (strValue : string) : option Time :=
  match layouts with
  | [] => None
  | layout :: rest =>
      match time_Parse layout strValue with
      | inl t => Some t
      | inr _ => parseDate rest strValue
      end
  end.

(** [strings.ToUpper(word[:1]) + word[1:]] *)
Definition capitalize (word : string) : string :=
  match word with
  | EmptyString => EmptyString
  | String c rest => String (strings.toUpper c) rest
  end.

(** [formatValue] formats a value according to the specified format;
    on an error the value returned is nil. *)
Definition formatValue (v : value) (format : string) : value * option error :=
  if format =? "" then (v, None) else
  let strValue := Sprintf_v v in
  if format =? "string" then (VString strValue, None)
  else if format =? "int" then
    match Sscanf_d strValue with
    | inr err => (VNil, Some ("cannot convert to int: " +:+ err))
    | inl intVal => (VInt intVal, None)
    end
  else if format =? "float" then
    match Sscanf_f strValue with
    | inr err => (VNil, Some ("cannot convert to float: " +:+ err))
    | inl floatVal => (VFloat floatVal, None)
    end
  else if (format =? "date") || (format =? "datetime") then
    match parseDate dateLayouts strValue with
    | Some t => (VTime t, None)
    | None => (VNil, Some ("cannot parse date: " +:+ strValue))
    end
  else if format =? "uppercase" then (VString (strings.ToUpper strValue), None)
  else if format =? "lowercase" then (VString (strings.ToLower strValue), None)
  else if format =? "trim" then (VString (strings.TrimSpace strValue), None)
  else if format =? "titlecase" then
    let words := strings.Fields (strings.ToLower strValue) in
    (VString (strings.Join (map capitalize words) " "), None)
  else if (format =? "bool") || (format =? "boolean") then
    match strconv.ParseBool strValue with
    | (boolVal, None) => (VBool boolVal, None)
    | (_, Some _) =>
        let lower := strings.ToLower (strings.TrimSpace strValue) in
        if (lower =? "yes") || (lower =? "y") || (lower =? "1")
        then (VBool true, None)
        else if (lower =? "no") || (lower =? "n") || (lower =? "0")
        then (VBool false, None)
        else (VNil, Some ("cannot convert to bool: " +:+ strValue))
    end
  else (v, None).

(** How the body of the mapping loop goes on after one of its blocks:
    on to the next statement with a value, on to the next mapping
    ([continue]), or out of [Transform] with an error. *)
Inductive flow : Type :=
| Proceed (v : value)
| Continue
| Return (err : error).

(** The two variables the loop updates. *)
Record mapState : Type := {
  newData : gmap string value;
  errors : list string;
}.

(** The body of the loop [for _, mapping := range f.config.Mappings],
    on the original [data] of the event. *)
Definition applyMapping (f : FieldMapper) (data : gmap string value)
    (st : mapState) (mapping : FieldMapping) : mapState + error :=
  let strict := StrictMode (config f) in
  let '(found, exists_) :=
    getFieldValue data (Source mapping) (NestedPath mapping) in
  (* Handle missing required fields *)
  let missing := negb exists_ || is_nil found in
  let errors1 :=
    if missing && Required mapping
    then errors st ++ ["required field '" +:+ Source mapping +:+ "' is missing"]
    else errors st in
  let resolved :=
    if missing then
      if Required mapping && strict
      then Return ("required field '" +:+ Source mapping +:+ "' is missing")
      else if negb (Default mapping =? "")
      then Proceed (VString (Default mapping))
      else Continue
    else Proceed found in
  match resolved with
  | Return err => inr err
  | Continue => inl {| newData := newData st; errors := errors1 |}
  | Proceed v1 =>
      (* Extract using regex if specified *)
      let extracted :=
        match extractors f !! Source mapping with
        | Some extractor =>
            let strValue := Sprintf_v v1 in
            match FindStringSubmatch extractor strValue with
            | _ :: group1 :: _ => Proceed (VString group1)
            | whole :: _ => Proceed (VString whole)
            | [] =>
                if Required mapping && strict
                then Return ("extraction pattern failed for field '"
                             +:+ Source mapping +:+ "'")
                else Continue
            end
        | None => Proceed v1
        end in
      match extracted with
      | Return err => inr err
      | Continue => inl {| newData := newData st; errors := errors1 |}
      | Proceed v2 =>
          (* Format the value *)
          match formatValue v2 (Format mapping) with
          | (_, Some err) =>
              let errors2 :=
                errors1 ++ ["formatting error for field '" +:+ Source mapping
                            +:+ "': " +:+ err] in
              if strict
              then inr ("formatting error for field '" +:+ Source mapping
                        +:+ "': " +:+ err)
              else inl {| newData := newData st; errors := errors2 |}
          | (formattedValue, None) =>
              let destName :=
                if Destination mapping =? "" then Source mapping
                else Destination mapping in
              inl {| newData := <[destName := formattedValue]> (newData st);
                     errors := errors1 |}
          end
      end
  end.

Fixpoint applyMappings (f : FieldMapper) (data : gmap string value)
    (mappings : list FieldMapping) (st : mapState) : mapState + error :=
  match mappings with
  | [] => inl st
  | mapping :: rest =>
      match applyMapping f data st mapping with
      | inr err => inr err
      | inl st' => applyMappings f data rest st'
      end
  end.

(** A [map[string]bool] with [true] at every name of the list; a name
    not in it reads as [false]. *)
Definition nameSet (names : list string) : gmap string bool :=
  foldl (fun m name => <[name := true]> m) ∅ names.

Definition reads_true (m : gmap string bool) (key : string) : bool :=
  default false (m !! key).

(** The block [if f.config.IncludeAll { ... }]: the loop over
    [event.Data] writes into [newData]. *)
Definition includeUnmapped (cfg : FieldMapperConfig)
    (data : gmap string value) (newData : gmap string value)
  : gmap string value :=
  let excludeMap := nameSet (ExcludeFields cfg) in
  let mappedSources := nameSet (map Source (Mappings cfg)) in
  map_fold
    (fun key v acc =>
       if negb (reads_true mappedSources key) && negb (reads_true excludeMap key)
       then <[key := v]> acc else acc)
    newData data.

(** [Transform] with what it writes to the logger. *)
Definition Transform_logged (f : FieldMapper) (event : pipeline.Event)
  : (pipeline.Event * option error) * list string :=
  match applyMappings f (pipeline.Data event) (Mappings (config f))
          {| newData := ∅; errors := [] |} with
  | inr err => ((event, Some err), [])
  | inl st =>
      let newData' :=
        if IncludeAll (config f)
        then includeUnmapped (config f) (pipeline.Data event) (newData st)
        else newData st in
      let logged :=
        if (0 <? length (errors st))%nat && negb (StrictMode (config f))
        then map (fun errMsg =>
                    "[FieldMapper] Non-fatal transformation error: " +:+ errMsg)
                 (errors st)
        else [] in
      ((pipeline.set_Data event newData', None), logged)
  end.

(** [Transform] transforms an event by mapping and formatting fields. *)
Definition Transform (f : FieldMapper) (event : pipeline.Event)
  : pipeline.Event * option error :=
  fst (Transform_logged f event).

(** A [*FieldMapper] used as a [pipeline.Transformer]. *)
Definition asTransformer (f : FieldMapper) : pipeline.Transformer :=
  {| pipeline.Transform := Transform f |}.

(** [PassThroughTransformer] passes the event through unchanged. *)
Definition PassThroughTransformer : pipeline.Transformer :=
  {| pipeline.Transform := fun event => (event, None) |}.

End FieldMapper.
End transform.

(* ===================================================================== *)
(** ** Package [config]: the settings the reconciler reads               *)
(* ===================================================================== *)

Module config.

(** [SyncConfig]; [BatchSize] is a Go [int]. *)
Record SyncConfig : Type := {
  InitialSync : bool;
  ForceInitialSync : bool;
  TimestampField : string;
  BatchSize : Z;
}.

Record PipelineConfig : Type := {
  Name : string;
  Sync : SyncConfig;
}.

(** [Config], without the blocks [main] consumes while it builds the
    source, the sink and the transformer. *)
Record Config : Type := {
  Pipeline : PipelineConfig;
}.

End config.

(* ===================================================================== *)
(** ** Package [source]: the initial sync of the MongoDB source          *)
(* ===================================================================== *)

Module source.
Section MongoDB.
Context {L : GoLib}.

(** [InitialSyncConfig]; a nil [FromTimestamp] is [VNil]. *)
Record InitialSyncConfig : Type := {
  Enabled : bool;
  TimestampField : string;
  FromTimestamp : value;
  BatchSize : Z;
}.

(** The one operator the filter uses: [bson.M{"$gte": v}]. *)
Inductive condition : Type :=
| Gte (v : value).

(** [options.Find()] with the two settings the sync makes: the batch
    size, an [int32], and the sort document (key, direction). *)
Record FindOptions : Type := {
  OptBatchSize : Z;
  OptSort : list (string * Z);
}.

(** [int32(n)] for an [int] n: the low 32 bits, signed. *)
Definition int32 (n : Z) : Z :=
  ((n + 2 ^ 31) mod 2 ^ 32 - 2 ^ 31)%Z.

(** What the driver's cursor yields: for each document what [Decode]
    gives and the time at which it is converted, then [cursor.Err()]. *)
Record Cursor : Type := {
  documents : list ((gmap string value + error) * Time);
  cursorErr : option error;
}.

(** [MongoDBSource]: its fields, and what the server answers to
    [Connect], to [collection.Find] and on the change stream. *)
Record MongoDBSource : Type := {
  uri : string;
  database : string;
  collection : string;
  connects : option error;
  Find : gmap string condition -> FindOptions -> Cursor + error;
  changeStream : list pipeline.Event * list error;
}.

Definition Connect (m : MongoDBSource) : option error := connects m.

(** The source as the engine sees it. *)
Definition asSource (m : MongoDBSource) : pipeline.Source :=
  {| pipeline.Source_Connect := Connect m;
     pipeline.Source_Read := changeStream m;
     pipeline.Source_Close := None |}.

(** The loop [for cursor.Next(ctx)]: events sent, errors sent, lines
    logged, and the final count. *)
Fixpoint syncLoop (m : MongoDBSource)
    (docs : list ((gmap string value + error) * Time)) (count : Z)
  : list pipeline.Event * list error * list string * Z :=
  match docs with
  | [] => ([], [], [], count)
  | (inr err, _) :: rest =>
      let '(events, errors, logged, n) := syncLoop m rest count in
      (events, ("failed to decode document: " +:+ err) :: errors, logged, n)
  | (inl doc, now) :: rest =>
      let event :=
        {| pipeline.ID := Sprintf_v (default VNil (doc !! "_id"));
           pipeline.Timestamp := now;
           pipeline.Operation := "insert";
           pipeline.Source_ := "mongodb";
           pipeline.Database := database m;
           pipeline.Collection := collection m;
           pipeline.Data := doc;
           pipeline.Before := None |} in
      let count' := (count + 1)%Z in
      let progress :=
        if (count' mod 1000 =? 0)%Z
        then ["Initial sync progress: " +:+ pretty count' +:+ " documents synced"]
        else [] in
      let '(events, errors, logged, n) := syncLoop m rest count' in
      (event :: events, errors, progress ++ logged, n)
  end.

(** A run of [PerformInitialSync]: the query it makes, and what it
    sends on its two channels and logs before it closes them. *)
Record InitialSync : Type := {
  filter : gmap string condition;
  opts : FindOptions;
  events : list pipeline.Event;
  errors : list error;
  logged : list string;
}.

(** [PerformInitialSync] performs initial synchronization of existing
    data. *)
Definition PerformInitialSync (m : MongoDBSource) (config : InitialSyncConfig)
  : InitialSync :=
  (* Build query filter *)
  let fromCursor :=
    negb (TimestampField config =? "") && negb (is_nil (FromTimestamp config)) in
  let filter : gmap string condition :=
    if fromCursor
    then <[TimestampField config := Gte (FromTimestamp config)]> ∅
    else ∅ in
  let starting :=
    if fromCursor
    then "Starting initial sync from timestamp: "
         +:+ Sprintf_v (FromTimestamp config)
         +:+ " on field: " +:+ TimestampField config
    else "Starting full initial sync for " +:+ database m +:+ "."
         +:+ collection m in
  (* Set batch size *)
  let batchSize :=
    if (BatchSize config <=? 0)%Z then 1000%Z else BatchSize config in
  (* Query with cursor *)
  let opts :=
    {| OptBatchSize := int32 batchSize;
       OptSort :=
         if negb (TimestampField config =? "")
         then [(TimestampField config, 1%Z)] else [] |} in
  match Find m filter opts with
  | inr err =>
      {| filter := filter; opts := opts; events := [];
         errors := ["failed to query MongoDB for initial sync: " +:+ err];
         logged := [starting] |}
  | inl cursor =>
      let '(events, errors, progress, count) :=
        syncLoop m (documents cursor) 0%Z in
      match cursorErr cursor with
      | Some err =>
          {| filter := filter; opts := opts; events := events;
             errors := errors ++ ["cursor error during initial sync: " +:+ err];
             logged := starting :: progress |}
      | None =>
          {| filter := filter; opts := opts; events := events;
             errors := errors;
             logged := starting :: progress
               ++ ["Initial sync completed: " +:+ pretty count
                   +:+ " documents synced"] |}
      end
  end.

(** [convertBSONToMap] converts BSON document to map: a copy, key by
    key. *)
Definition convertBSONToMap (doc : gmap string value) : gmap string value :=
  map_fold (fun k v result => <[k := v]> result) ∅ doc.

(** [convertChangeEvent] converts MongoDB change stream event to
    pipeline event; [now] is [time.Now()].  A [bson.M] is a [VMap]; the
    nil map of an event without data is the empty map. *)
Definition convertChangeEvent (m : MongoDBSource)
    (changeDoc : gmap string value) (now : Time) : pipeline.Event :=
  let id :=
    match changeDoc !! "_id" with
    | Some id => Sprintf_v id
    | None => ""
    end in
  let operation :=
    match changeDoc !! "operationType" with
    | Some (VString opType) => opType
    | _ => ""
    end in
  let fullData : gmap string value :=
    match changeDoc !! "fullDocument" with
    | Some (VMap fullDoc) => convertBSONToMap fullDoc
    | _ => ∅
    end in
  let data :=
    match changeDoc !! "updateDescription" with
    | Some (VMap updateDesc) =>
        match updateDesc !! "updatedFields" with
        | Some (VMap updatedFields) =>
            map_fold (fun k v data => <[k := v]> data) fullData
              (convertBSONToMap updatedFields)
        | _ => fullData
        end
    | _ => fullData
    end in
  {| pipeline.ID := id;
     pipeline.Timestamp := now;
     pipeline.Operation := operation;
     pipeline.Source_ := "mongodb";
     pipeline.Database := database m;
     pipeline.Collection := collection m;
     pipeline.Data := data;
     pipeline.Before := None |}.

(** The loop [for stream.Next(ctx)] of [Read]: events sent and errors
    sent. *)
Fixpoint streamLoop (m : MongoDBSource)
    (changes : list ((gmap string value + error) * Time))
  : list pipeline.Event * list error :=
  match changes with
  | [] => ([], [])
  | (inr err, _) :: rest =>
      let '(events, errors) := streamLoop m rest in
      (events, ("failed to decode change event: " +:+ err) :: errors)
  | (inl changeDoc, now) :: rest =>
      let '(events, errors) := streamLoop m rest in
      (convertChangeEvent m changeDoc now :: events, errors)
  end.

(** The goroutine of [Read], on what [collection.Watch] answers: the
    change stream, as a cursor, or an error. *)
Definition ReadStream (m : MongoDBSource) (watch : Cursor + error)
  : list pipeline.Event * list error :=
  match watch with
  | inr err => ([], ["failed to create change stream: " +:+ err])
  | inl stream =>
      let '(events, errors) := streamLoop m (documents stream) in
      match cursorErr stream with
      | Some err => (events, errors ++ ["change stream error: " +:+ err])
      | None => (events, errors)
      end
  end.

End MongoDB.
End source.

(* ===================================================================== *)
(** ** Package [sink]: what the reconciler asks of the PostgreSQL sink   *)
(* ===================================================================== *)

Module sink.
Section PostgreSQL.
Context {L : GoLib}.

(** What a [QueryRow(...).Scan] gives: [sql.ErrNoRows], a value, or
    another error. *)
Inductive scanned : Type :=
| NoRows
| Row (v : value)
| ScanError (err : error).

(** What the database answers: to opening and pinging, to the count
    query, to the latest-value query on a column, and to a batch
    written in one transaction. *)
Record DB : Type := {
  Open : option error;
  Ping : option error;
  Count : Z + error;
  Latest : string -> scanned;
  writeBatch : list pipeline.Event -> option error;
}.

Record PostgreSQLSink : Type := {
  connStr : string;
  table : string;
  db : DB;
  batchSize : nat;
}.

Definition NewPostgreSQLSink (connStr table : string) (db : DB)
  : PostgreSQLSink :=
  {| connStr := connStr; table := table; db := db; batchSize := 100 |}.

Definition isLetter_ (c : ascii) : bool :=
  strings.isUpper c || strings.isLower c || Ascii.eqb c "_".
Definition isWord (c : ascii) : bool :=
  isLetter_ c || ((48 <=? nat_of_ascii c)%nat && (nat_of_ascii c <=? 57)%nat).

(** [validTableName.MatchString]: the pattern
    [^[a-zA-Z_][a-zA-Z0-9_]{0,62}$]. *)
Definition validTableName (s : string) : bool :=
  match strings.bytes s with
  | [] => false
  | c :: rest =>
      isLetter_ c && forallb isWord rest && (length rest <=? 62)%nat
  end.

Definition Connect (p : PostgreSQLSink) : option error :=
  if negb (validTableName (table p)) then
    Some ("invalid table name: " +:+ table p
          +:+ " (must be alphanumeric with underscores, starting with letter or underscore)")
  else
    match Open (db p) with
    | Some err => Some ("failed to connect to PostgreSQL: " +:+ err)
    | None =>
        match Ping (db p) with
        | Some err => Some ("failed to ping PostgreSQL: " +:+ err)
        | None => None
        end
    end.

(** The goroutine of [Write]: the errors it sends.  [batch] is the
    batch being filled. *)
Fixpoint writeLoop (p : PostgreSQLSink) (events : list pipeline.Event)
    (batch : list pipeline.Event) : list error :=
  match events with
  | [] =>
      (* Write remaining events *)
      if (0 <? length batch)%nat
      then match writeBatch (db p) batch with Some err => [err] | None => [] end
      else []
  | event :: rest =>
      let batch' := batch ++ [event] in
      if (batchSize p <=? length batch')%nat then
        match writeBatch (db p) batch' with
        | Some err => err :: writeLoop p rest []
        | None => writeLoop p rest []
        end
      else writeLoop p rest batch'
  end.

Definition Write (p : PostgreSQLSink) (events : list pipeline.Event)
  : list error :=
  writeLoop p events [].

(** [GetLatestTimestamp] retrieves the latest timestamp from the table. *)
Definition GetLatestTimestamp (p : PostgreSQLSink) (timestampField : string)
  : value * option error :=
  if timestampField =? "" then (VNil, Some "timestamp field is required")
  else if negb (validTableName timestampField)
  then (VNil, Some ("invalid timestamp field name: " +:+ timestampField))
  else
    match Latest (db p) timestampField with
    | NoRows => (VNil, None)
    | ScanError err => (VNil, Some ("failed to get latest timestamp: " +:+ err))
    | Row timestamp => (timestamp, None)
    end.

(** [IsTableEmpty] checks if the target table is empty. *)
Definition IsTableEmpty (p : PostgreSQLSink) : bool * option error :=
  match Count (db p) with
  | inr err => (false, Some ("failed to check if table is empty: " +:+ err))
  | inl count => ((count =? 0)%Z, None)
  end.

(** The sink as the engine sees it. *)
Definition asSink (p : PostgreSQLSink) : pipeline.Sink :=
  {| pipeline.Sink_Connect := Connect p;
     pipeline.Sink_Write := Write p;
     pipeline.Sink_Close := None |}.

(** A statement handed to [tx.ExecContext]: the query and its
    arguments. *)
Record statement : Type := {
  query : string;
  args : list value;
}.

(** What [tx.Rollback] answers: nil, [sql.ErrTxDone], or another
    error. *)
Inductive rollback : Type :=
  | RolledBack
  | ErrTxDone
  | RollbackError (rbErr : error).

(** A transaction: what [ExecContext] answers to each statement, what
    [Commit] answers and what the deferred [Rollback] answers. *)
Record Tx : Type := {
  ExecContext : statement -> option error;
  Commit : option error;
  Rollback : rollback;
}.

(** The deferred function of [writeBatch]: the line it logs. *)
Definition deferredRollback (tx : Tx) : list string :=
  match Rollback tx with
  | RollbackError rbErr =>
      ["Warning: failed to rollback transaction: " +:+ rbErr]
  | _ => []
  end.

(** [buildUpdateClause] builds the SET clause for upsert. *)
Definition buildUpdateClause (columns : list string) : string :=
  strings.Join
    (map (fun col => col +:+ " = EXCLUDED." +:+ col)
       (List.filter (fun col => negb (col =? "_id")) columns))
    ", ".

(** The placeholders [$i], [$(i+1)], ... *)
Fixpoint placeholders (i : nat) (count : nat) : list string :=
  match count with
  | O => []
  | S count' => ("$" +:+ pretty i) :: placeholders (S i) count'
  end.

(** The statement of [insertEvent], for the entries of [event.Data] in
    the order the loop over the map meets them. *)
Definition insertStatement (table : string) (entries : list (string * value))
  : statement :=
  let columns := map fst entries in
  {| query :=
       "INSERT INTO " +:+ table +:+ " (" +:+ strings.Join columns ", "
       +:+ ") VALUES ("
       +:+ strings.Join (placeholders 1 (length entries)) ", "
       +:+ ") ON CONFLICT (_id) DO UPDATE SET " +:+ buildUpdateClause columns;
     args := map snd entries |}.

(** [insertEvent] inserts a new record: the error returned and the
    statements executed. *)
Definition insertEvent (p : PostgreSQLSink) (tx : Tx) (event : pipeline.Event)
  : option error * list statement :=
  let entries := map_to_list (pipeline.Data event) in
  if (length entries =? 0)%nat then (None, [])
  else
    let stmt := insertStatement (table p) entries in
    (ExecContext tx stmt, [stmt]).

(** [upsertEvent] updates or inserts a record. *)
Definition upsertEvent (p : PostgreSQLSink) (tx : Tx) (event : pipeline.Event)
  : option error * list statement :=
  insertEvent p tx event.

(** [deleteEvent] deletes a record. *)
Definition deleteEvent (p : PostgreSQLSink) (tx : Tx) (event : pipeline.Event)
  : option error * list statement :=
  match pipeline.Data event !! "_id" with
  | Some id =>
      let stmt :=
        {| query := "DELETE FROM " +:+ table p +:+ " WHERE _id = $1";
           args := [id] |} in
      (ExecContext tx stmt, [stmt])
  | None => (None, [])
  end.

(** [writeEvent] writes a single event to PostgreSQL: the error
    returned, the statements executed and the lines logged. *)
Definition writeEvent (p : PostgreSQLSink) (tx : Tx) (event : pipeline.Event)
  : option error * list statement * list string :=
  let operation := pipeline.Operation event in
  if operation =? "insert" then (insertEvent p tx event, [])
  else if (operation =? "update") || (operation =? "replace")
  then (upsertEvent p tx event, [])
  else if operation =? "delete" then (deleteEvent p tx event, [])
  else (None, [], ["Unknown operation type: " +:+ operation]).

(** The loop of [writeBatch] over the events: it returns at the first
    event that fails. *)
Fixpoint writeEvents (p : PostgreSQLSink) (tx : Tx)
    (events : list pipeline.Event)
  : option error * list statement * list string :=
  match events with
  | [] => (None, [], [])
  | event :: rest =>
      match writeEvent p tx event with
      | (Some err, executed, logged) =>
          (Some ("failed to write event: " +:+ err), executed, logged)
      | (None, executed, logged) =>
          let '(err, executed', logged') := writeEvents p tx rest in
          (err, executed ++ executed', logged ++ logged')
      end
  end.

(** A run of the body of [writeBatch]: the error returned, the
    statements executed, whether the transaction was committed, and
    the lines logged. *)
Record BatchOutcome : Type := {
  batchErr : option error;
  executed : list statement;
  committed : bool;
  batchLogged : list string;
}.

(** The body of [writeBatch], on what [db.BeginTx] answers; [writeBatch]
    of the record [DB] above is its error alone.  The deferred
    [Rollback] undoes whatever was not committed, and logs a warning
    when it fails with an error other than [sql.ErrTxDone]. *)
Definition writeBatchTx (p : PostgreSQLSink) (begin : Tx + error)
    (events : list pipeline.Event) : BatchOutcome :=
  if (length events =? 0)%nat then
    {| batchErr := None; executed := []; committed := false; batchLogged := [] |}
  else
    match begin with
    | inr err =>
        {| batchErr := Some ("failed to begin transaction: " +:+ err);
           executed := []; committed := false; batchLogged := [] |}
    | inl tx =>
        match writeEvents p tx events with
        | (Some err, executed, logged) =>
            {| batchErr := Some err; executed := executed;
               committed := false;
               batchLogged := logged ++ deferredRollback tx |}
        | (None, executed, logged) =>
            match Commit tx with
            | Some err =>
                {| batchErr := Some ("failed to commit transaction: " +:+ err);
                   executed := executed; committed := false;
                   batchLogged := logged ++ deferredRollback tx |}
            | None =>
                {| batchErr := None; executed := executed; committed := true;
                   batchLogged :=
                     logged ++ ["Wrote " +:+ pretty (length events)
                                +:+ " events to PostgreSQL"]
                     ++ deferredRollback tx |}
            end
        end
    end.

(** The batches the goroutine of [Write] hands to [writeBatch], in
    order; [batch] is the batch being filled. *)
Fixpoint batchesOf (size : nat) (events : list pipeline.Event)
    (batch : list pipeline.Event) : list (list pipeline.Event) :=
  match events with
  | [] => if (0 <? length batch)%nat then [batch] else []
  | event :: rest =>
      let batch' := batch ++ [event] in
      if (size <=? length batch')%nat then batch' :: batchesOf size rest []
      else batchesOf size rest batch'
  end.

End PostgreSQL.
End sink.

(* ===================================================================== *)
(** ** [cmd/data-pipe]: the reconciler and the start of live capture     *)
(* ===================================================================== *)

Module main.
Section Reconciler.
Context {L : GoLib}.

(** A [pipeline.Source] with its dynamic type, for the type assertion
    [src.( *source.MongoDBSource)]; likewise for the sink. *)
Inductive AnySource : Type :=
| MongoDB (m : source.MongoDBSource)
| OtherSource (s : pipeline.Source).

Inductive AnySink : Type :=
| PostgreSQL (p : sink.PostgreSQLSink)
| OtherSink (s : pipeline.Sink).

(** The block "Determine initial sync strategy": the value of
    [fromTimestamp] and the lines logged, or the error returned. *)
Definition chooseFromTimestamp (sync : config.SyncConfig)
    (pgSink : sink.PostgreSQLSink) : (value * list string) + error :=
  if config.ForceInitialSync sync then
    inl (VNil, ["Force initial sync is enabled, syncing all data"])
  else if negb (config.TimestampField sync =? "") then
    (* Check if sink table is empty *)
    match sink.IsTableEmpty pgSink with
    | (_, Some err) => inr ("failed to check if sink table is empty: " +:+ err)
    | (isEmpty, None) =>
        if isEmpty then
          inl (VNil, ["Sink table is empty, performing full initial sync"])
        else
          (* Get latest timestamp from sink *)
          match sink.GetLatestTimestamp pgSink (config.TimestampField sync) with
          | (_, Some err) =>
              inl (VNil,
                   ["Warning: failed to get latest timestamp from sink: " +:+ err;
                    "Falling back to full initial sync"])
          | (ts, None) =>
              if negb (is_nil ts) then
                inl (ts, ["Starting incremental initial sync from timestamp: "
                          +:+ Sprintf_v ts])
              else
                inl (VNil, ["No timestamp found in sink, performing full initial sync"])
          end
    end
  else
    inl (VNil, ["No timestamp field configured, performing full initial sync"]).

(** The goroutine that transforms the events of the initial sync. *)
Fixpoint syncTransformWorker (transformer : option pipeline.Transformer)
    (events : list pipeline.Event) : list pipeline.Event * list string :=
  match events with
  | [] => ([], [])
  | event :: rest =>
      let '(sent, logged) := syncTransformWorker transformer rest in
      match transformer with
      | Some t =>
          match pipeline.Transform t event with
          | (_, Some err) =>
              (sent, ("Error transforming event during initial sync: " +:+ err)
                     :: logged)
          | (transformed, None) => (transformed :: sent, logged)
          end
      | None => (event :: sent, logged)
      end
  end.

(** A goroutine that ranges over an error channel: every error is
    logged and sets [errorOccurred]. *)
Fixpoint drainErrors (prefix : string) (errors : list error)
    (errorOccurred : bool) : bool * list string :=
  match errors with
  | [] => (errorOccurred, [])
  | err :: rest =>
      let '(occurred, logged) := drainErrors prefix rest true in
      (occurred, (prefix +:+ err) :: logged)
  end.

(** A run of [performInitialSync]: the error returned, the lines
    logged by the function and by each goroutine, the configuration
    handed to the source with the read it made, and the events handed
    to the sink. *)
Record SyncOutcome : Type := {
  result : option error;
  logged : list string;
  syncConfig : option source.InitialSyncConfig;
  read : option source.InitialSync;
  written : list pipeline.Event;
  transformLogged : list string;
  sourceErrorLogged : list string;
  sinkErrorLogged : list string;
}.

(** A return before the initial sync is started. *)
Definition failedEarly (err : error) : SyncOutcome :=
  {| result := Some err; logged := []; syncConfig := None; read := None;
     written := []; transformLogged := []; sourceErrorLogged := [];
     sinkErrorLogged := [] |}.

(** [performInitialSync] handles the initial synchronization of data. *)
Definition performInitialSync (cfg : config.Config) (src : AnySource)
    (snk : AnySink) (transformer : option pipeline.Transformer) : SyncOutcome :=
  let sync := config.Sync (config.Pipeline cfg) in
  (* Type assert to access MongoDB-specific methods *)
  match src with
  | OtherSource _ =>
      failedEarly "initial sync is only supported for MongoDB sources"
  | MongoDB mongoSrc =>
  match snk with
  | OtherSink _ =>
      failedEarly "initial sync is only supported for PostgreSQL sinks"
  | PostgreSQL pgSink =>
  (* Ensure connections are established *)
  match source.Connect mongoSrc with
  | Some err => failedEarly ("failed to connect to MongoDB: " +:+ err)
  | None =>
  match sink.Connect pgSink with
  | Some err => failedEarly ("failed to connect to PostgreSQL: " +:+ err)
  | None =>
  (* Determine initial sync strategy *)
  match chooseFromTimestamp sync pgSink with
  | inr err => failedEarly err
  | inl (fromTimestamp, strategyLogged) =>
      (* Prepare initial sync config *)
      let batchSize :=
        if (config.BatchSize sync <=? 0)%Z then 1000%Z
        else config.BatchSize sync in
      let syncConfig :=
        {| source.Enabled := true;
           source.TimestampField := config.TimestampField sync;
           source.FromTimestamp := fromTimestamp;
           source.BatchSize := batchSize |} in
      (* Perform initial sync *)
      let run := source.PerformInitialSync mongoSrc syncConfig in
      (* Transform and write events *)
      let '(transformedEvents, transformLogged) :=
        syncTransformWorker transformer (source.events run) in
      (* Write to sink *)
      let sinkErrors := sink.Write pgSink transformedEvents in
      (* Handle errors from both channels concurrently *)
      let '(fromSource, sourceLogged) :=
        drainErrors "Initial sync source error: " (source.errors run) false in
      let '(fromSink, sinkLogged) :=
        drainErrors "Initial sync sink error: " sinkErrors false in
      let errorOccurred := fromSource || fromSink in
      {| result :=
           if errorOccurred then Some "errors occurred during initial sync"
           else None;
         logged :=
           strategyLogged ++ ["Starting initial sync..."]
           ++ (if errorOccurred then []
               else ["Initial sync completed successfully"]);
         syncConfig := Some syncConfig;
         read := Some run;
         written := transformedEvents;
         transformLogged := transformLogged;
         sourceErrorLogged := sourceLogged;
         sinkErrorLogged := sinkLogged |}
  end end end end end.

(** How the process ends: [logger.Fatalf] exits at once; otherwise
    [main] returns after the pipeline has stopped. *)
Inductive exit : Type :=
| Fatal (line : string)
| Goodbye.

(** A run of [main] from the point where the pipeline is created:
    whether and how the initial sync ran, whether and how [pipe.Run]
    ran, and how the process ended. *)
Record MainOutcome : Type := {
  initialSync : option SyncOutcome;
  liveCapture : option pipeline.RunOutcome;
  exited : exit;
}.

(** Run CDC pipeline *)
Definition runCDC (pipe : pipeline.Pipeline) (initialSync : option SyncOutcome)
  : MainOutcome :=
  let run := pipeline.Run pipe in
  {| initialSync := initialSync;
     liveCapture := Some run;
     exited :=
       match pipeline.returned run with
       | Some err => Fatal ("Pipeline error: " +:+ err)
       | None => Goodbye
       end |}.

(** [main], with the source, the sink and the transformer it built
    from the configuration. *)
Definition main (cfg : config.Config) (src : source.MongoDBSource)
    (snk : sink.PostgreSQLSink) (transformer : pipeline.Transformer)
  : MainOutcome :=
  (* Create pipeline *)
  let pipe :=
    pipeline.New (config.Name (config.Pipeline cfg))
      (source.asSource src) (sink.asSink snk) (Some transformer) in
  (* Handle initial sync if configured *)
  if config.InitialSync (config.Sync (config.Pipeline cfg)) then
    let synced :=
      performInitialSync cfg (MongoDB src) (PostgreSQL snk) (Some transformer) in
    match result synced with
    | Some err =>
        {| initialSync := Some synced;
           liveCapture := None;
           exited := Fatal ("Initial sync failed: " +:+ err) |}
    | None => runCDC pipe (Some synced)
    end
  else runCDC pipe None.

End Reconciler.
End main.

(* ===================================================================== *)
(** ** A reference implementation of the library functions               *)
(* ===================================================================== *)

(** One implementation of [GoLib], to run the embedding on concrete
    events.  The regular expressions are a subset of the RE2 syntax
    (literals, [.], classes, [^] and [$], groups, alternation and the
    greedy and lazy [*], [+], [?]), matched leftmost-first by
    backtracking; a pattern outside the subset does not compile here. *)
Module Reference.

Inductive re : Type :=
| Eps
| Lit (c : ascii)
| AnyChar
| Class (negated : bool) (ranges : list (ascii * ascii))
| Bol
| Eol
| Cat (r1 r2 : re)
| Alt (r1 r2 : re)
| Star (greedy : bool) (r : re)
| Plus (greedy : bool) (r : re)
| Opt (greedy : bool) (r : re)
| Group (index : nat) (r : re).

Definition inRange (c : ascii) (range : ascii * ascii) : bool :=
  (nat_of_ascii (fst range) <=? nat_of_ascii c)%nat
  && (nat_of_ascii c <=? nat_of_ascii (snd range))%nat.

Definition inClass (negated : bool) (ranges : list (ascii * ascii))
    (c : ascii) : bool :=
  xorb negated (existsb (inRange c) ranges).

(** Capture positions, latest first: group, start, end. *)
Definition captures : Type := list (nat * (nat * nat)).

(** The continuation takes the position, the rest of the text and the
    captures; a match gives the captures and the end position. *)
Definition cont : Type :=
  nat -> list ascii -> captures -> option (captures * nat).

Definition orElse {A} (x y : option A) : option A :=
  match x with Some _ => x | None => y end.

Fixpoint matchAt (r : re) (pos : nat) (s : list ascii) (caps : captures)
    (k : cont) {struct r} : option (captures * nat) :=
  match r with
  | Eps => k pos s caps
  | Lit c =>
      match s with
      | c' :: s' => if Ascii.eqb c c' then k (S pos) s' caps else None
      | [] => None
      end
  | AnyChar =>
      match s with
      | c' :: s' => if Ascii.eqb c' "010" then None else k (S pos) s' caps
      | [] => None
      end
  | Class negated ranges =>
      match s with
      | c' :: s' => if inClass negated ranges c' then k (S pos) s' caps else None
      | [] => None
      end
  | Bol => if (pos =? 0)%nat then k pos s caps else None
  | Eol => match s with [] => k pos s caps | _ => None end
  | Cat r1 r2 =>
      matchAt r1 pos s caps (fun pos' s' caps' => matchAt r2 pos' s' caps' k)
  | Alt r1 r2 => orElse (matchAt r1 pos s caps k) (matchAt r2 pos s caps k)
  | Opt greedy r1 =>
      if greedy then orElse (matchAt r1 pos s caps k) (k pos s caps)
      else orElse (k pos s caps) (matchAt r1 pos s caps k)
  | Star greedy r1 =>
      (fix loop (fuel : nat) (pos : nat) (s : list ascii) (caps : captures)
         : option (captures * nat) :=
         match fuel with
         | O => k pos s caps
         | S fuel' =>
             let again :=
               matchAt r1 pos s caps
                 (fun pos' s' caps' =>
                    if (pos <? pos')%nat then loop fuel' pos' s' caps' else None) in
             if greedy then orElse again (k pos s caps)
             else orElse (k pos s caps) again
         end) (length s) pos s caps
  | Plus greedy r1 =>
      matchAt r1 pos s caps
        ((fix loop (fuel : nat) (pos : nat) (s : list ascii) (caps : captures)
           : option (captures * nat) :=
           match fuel with
           | O => k pos s caps
           | S fuel' =>
               let again :=
                 matchAt r1 pos s caps
                   (fun pos' s' caps' =>
                      if (pos <? pos')%nat then loop fuel' pos' s' caps' else None) in
               if greedy then orElse again (k pos s caps)
               else orElse (k pos s caps) again
           end) (length s))
  | Group index r1 =>
      matchAt r1 pos s caps
        (fun pos' s' caps' => k pos' s' ((index, (pos, pos')) :: caps'))
  end.

(** The leftmost start at which the expression matches. *)
Fixpoint search (r : re) (pos : nat) (s : list ascii)
  : option (nat * (captures * nat)) :=
  match matchAt r pos s [] (fun pos' _ caps => Some (caps, pos')) with
  | Some found => Some (pos, found)
  | None =>
      match s with
      | [] => None
      | _ :: s' => search r (S pos) s'
      end
  end.

Fixpoint groupCount (r : re) : nat :=
  match r with
  | Cat r1 r2 | Alt r1 r2 => Nat.max (groupCount r1) (groupCount r2)
  | Star _ r1 | Plus _ r1 | Opt _ r1 => groupCount r1
  | Group index r1 => Nat.max index (groupCount r1)
  | _ => O
  end.

Definition slice (text : list ascii) (from to : nat) : string :=
  strings.of_bytes (take (to - from) (drop from text)).

Definition groupText (text : list ascii) (caps : captures) (index : nat)
  : string :=
  match List.find (fun c => (fst c =? index)%nat) caps with
  | Some (_, (from, to)) => slice text from to
  | None => ""
  end.

Definition findStringSubmatch (r : re) (s : string) : list string :=
  let text := strings.bytes s in
  match search r 0 text with
  | None => []
  | Some (from, (caps, to)) =>
      slice text from to :: map (groupText text caps) (seq 1 (groupCount r))
  end.

(** *** Parsing a pattern *)

Definition digitRanges : list (ascii * ascii) := [("0", "9")]%char.
Definition wordRanges : list (ascii * ascii) :=
  [("0", "9"); ("A", "Z"); ("a", "z"); ("_", "_")]%char.
Definition spaceRanges : list (ascii * ascii) :=
  [("009", "010"); ("012", "013"); (" ", " ")]%char.

Definition isAlnum (c : ascii) : bool := inClass false wordRanges c.

(** The class or the byte an escape [\c] stands for. *)
Definition escape (c : ascii) : option re :=
  match c with
  | "d" => Some (Class false digitRanges)
  | "D" => Some (Class true digitRanges)
  | "w" => Some (Class false wordRanges)
  | "W" => Some (Class true wordRanges)
  | "s" => Some (Class false spaceRanges)
  | "S" => Some (Class true spaceRanges)
  | "n" => Some (Lit "010")
  | "t" => Some (Lit "009")
  | "r" => Some (Lit "013")
  | "f" => Some (Lit "012")
  | "v" => Some (Lit "011")
  | _ => if isAlnum c then None else Some (Lit c)
  end%char.

(** The items of a bracket expression, up to the closing bracket. *)
Fixpoint classItems (p : list ascii) (acc : list (ascii * ascii))
  : option (list (ascii * ascii) * list ascii) :=
  match p with
  | [] => None
  | "]"%char :: p' => Some (rev acc, p')
  | "\"%char :: c :: p' =>
      match escape c with
      | Some (Lit c') => classItems p' ((c', c') :: acc)
      | Some (Class false ranges) => classItems p' (rev ranges ++ acc)
      | _ => None
      end
  | lo :: "-"%char :: hi :: p' =>
      if Ascii.eqb hi "]" then Some (rev (("-", "-")%char :: (lo, lo) :: acc), p')
      else if (nat_of_ascii lo <=? nat_of_ascii hi)%nat
      then classItems p' ((lo, hi) :: acc)
      else None
  | c :: p' => classItems p' ((c, c) :: acc)
  end.

Definition parseClass (p : list ascii) : option (re * list ascii) :=
  let '(negated, p1) :=
    match p with
    | "^"%char :: p' => (true, p')
    | _ => (false, p)
    end in
  let '(first, p2) :=
    match p1 with
    | "]"%char :: p' => ([("]", "]")%char], p')
    | _ => ([], p1)
    end in
  match classItems p2 first with
  | Some (ranges, rest) => Some (Class negated ranges, rest)
  | None => None
  end.

(** A repetition operator after an expression, [?] after it for the
    lazy form. *)
Definition quantified (r : re) (p : list ascii) : re * list ascii :=
  let lazy (p' : list ascii) : bool * list ascii :=
    match p' with
    | "?"%char :: p'' => (false, p'')
    | _ => (true, p')
    end in
  match p with
  | "*"%char :: p' => let '(greedy, rest) := lazy p' in (Star greedy r, rest)
  | "+"%char :: p' => let '(greedy, rest) := lazy p' in (Plus greedy r, rest)
  | "?"%char :: p' => let '(greedy, rest) := lazy p' in (Opt greedy r, rest)
  | _ => (r, p)
  end.

(** An expression, the rest of the pattern and the index of the next
    capture group. *)
Definition parsed : Type := option (re * list ascii * nat).

Fixpoint parseAlt (fuel : nat) (p : list ascii) (next : nat) : parsed :=
  match fuel with
  | O => None
  | S fuel' =>
      match parseCat fuel' p next with
      | Some (r1, "|"%char :: p', next') =>
          match parseAlt fuel' p' next' with
          | Some (r2, rest, next'') => Some (Alt r1 r2, rest, next'')
          | None => None
          end
      | other => other
      end
  end
with parseCat (fuel : nat) (p : list ascii) (next : nat) : parsed :=
  match fuel with
  | O => None
  | S fuel' =>
      match p with
      | [] => Some (Eps, p, next)
      | "|"%char :: _ | ")"%char :: _ => Some (Eps, p, next)
      | _ =>
          match parseAtom fuel' p next with
          | Some (r, p', next') =>
              let '(r1, p1) := quantified r p' in
              match parseCat fuel' p1 next' with
              | Some (Eps, rest, next'') => Some (r1, rest, next'')
              | Some (r2, rest, next'') => Some (Cat r1 r2, rest, next'')
              | None => None
              end
          | None => None
          end
      end
  end
with parseAtom (fuel : nat) (p : list ascii) (next : nat) : parsed :=
  match fuel with
  | O => None
  | S fuel' =>
      match p with
      | "("%char :: "?"%char :: ":"%char :: p' =>
          match parseAlt fuel' p' next with
          | Some (r, ")"%char :: rest, next') => Some (r, rest, next')
          | _ => None
          end
      | "("%char :: "?"%char :: _ => None
      | "("%char :: p' =>
          match parseAlt fuel' p' (S next) with
          | Some (r, ")"%char :: rest, next') => Some (Group next r, rest, next')
          | _ => None
          end
      | "["%char :: p' =>
          match parseClass p' with
          | Some (r, rest) => Some (r, rest, next)
          | None => None
          end
      | "."%char :: p' => Some (AnyChar, p', next)
      | "^"%char :: p' => Some (Bol, p', next)
      | "$"%char :: p' => Some (Eol, p', next)
      | "\"%char :: c :: p' =>
          match escape c with
          | Some r => Some (r, p', next)
          | None => None
          end
      | "\"%char :: [] => None
      | "*"%char :: _ | "+"%char :: _ | "?"%char :: _ => None
      | "{"%char :: _ | ")"%char :: _ => None
      | c :: p' => Some (Lit c, p', next)
      | [] => None
      end
  end.

Definition compile (expr : string) : re + error :=
  let p := strings.bytes expr in
  match parseAlt (3 * length p + 3) p 1 with
  | Some (r, [], _) => inl r
  | _ => inr ("error parsing regexp: " +:+ expr)
  end.

(** *** Scanning numbers *)

Definition digit (c : ascii) : option Z :=
  let n := nat_of_ascii c in
  if (48 <=? n)%nat && (n <=? 57)%nat then Some (Z.of_nat (n - 48)) else None.

(** The leading decimal digits of [p]: their value, how many there
    are, and the rest. *)
Fixpoint digits (p : list ascii) (acc : Z) (count : nat)
  : Z * nat * list ascii :=
  match p with
  | c :: p' =>
      match digit c with
      | Some d => digits p' (10 * acc + d)%Z (S count)
      | None => (acc, count, p)
      end
  | [] => (acc, count, p)
  end.

(** [SkipSpace] of a scan that does not take a newline for a space. *)
Fixpoint skipSpace (p : list ascii) : list ascii + error :=
  match p with
  | c :: p' =>
      if Ascii.eqb c "010" then inr "unexpected newline"
      else if strings.isSpace c then skipSpace p'
      else inl p
  | [] => inl p
  end.

Definition signOf (p : list ascii) : bool * list ascii :=
  match p with
  | "-"%char :: p' => (true, p')
  | "+"%char :: p' => (false, p')
  | _ => (false, p)
  end.

(** [fmt.Sscanf(s, "%d", &intVal)] for a 64-bit [int]: leading space,
    a sign, decimal digits; what follows the digits is not read. *)
Definition scanInt (s : string) : Z + error :=
  match skipSpace (strings.bytes s) with
  | inr err => inr err
  | inl [] => inr "unexpected EOF"
  | inl p =>
      let '(negative, p1) := signOf p in
      match digits p1 0%Z O with
      | (_, O, _) => inr "expected integer"
      | (n, _, _) =>
          let z := if negative then (- n)%Z else n in
          if ((- 2 ^ 63 <=? z) && (z <? 2 ^ 63))%Z then inl z
          else inr "value out of range"
      end
  end.

(** A float is kept as the decimal read: [mantissa * 10 ^ exponent]. *)
Record decimal : Type := {
  mantissa : Z;
  exponent : Z;
}.

Definition scanFloat (s : string) : decimal + error :=
  match skipSpace (strings.bytes s) with
  | inr err => inr err
  | inl [] => inr "unexpected EOF"
  | inl p =>
      let '(negative, p1) := signOf p in
      let '(whole, nWhole, p2) := digits p1 0%Z O in
      let '(all, nFrac, p3) :=
        match p2 with
        | "."%char :: p' => digits p' whole O
        | _ => (whole, O, p2)
        end in
      let exp10 :=
        match p3 with
        | "e"%char :: p' | "E"%char :: p' =>
            let '(negExp, p4) := signOf p' in
            let '(e, _, _) := digits p4 0%Z O in
            if negExp then (- e)%Z else e
        | _ => 0%Z
        end in
      if (nWhole + nFrac =? 0)%nat then inr "strconv.ParseFloat: invalid syntax"
      else inl {| mantissa := if negative then (- all)%Z else all;
                  exponent := (exp10 - Z.of_nat nFrac)%Z |}
  end.

Definition printDecimal (x : decimal) : string :=
  pretty (mantissa x) +:+ "e" +:+ pretty (exponent x).

(** *** Parsing dates *)

(** A time by its calendar fields; [zone] is minutes east of UTC. *)
Record datetime : Type := {
  year : Z; month : Z; day : Z;
  hour : Z; minute : Z; second : Z;
  zone : Z;
}.

(** Exactly [n] decimal digits. *)
Definition fixedDigits (n : nat) (p : list ascii) : option (Z * list ascii) :=
  match digits (take n p) 0%Z O with
  | (v, count, []) => if (count =? n)%nat then Some (v, drop n p) else None
  | _ => None
  end.

Definition expect (c : ascii) (p : list ascii) : option (list ascii) :=
  match p with
  | c' :: p' => if Ascii.eqb c c' then Some p' else None
  | [] => None
  end.

Definition isLeap (y : Z) : bool :=
  (((y mod 4 =? 0) && negb (y mod 100 =? 0)) || (y mod 400 =? 0))%Z.

Definition daysIn (y m : Z) : Z :=
  if (m =? 2)%Z then (if isLeap y then 29 else 28)%Z
  else if ((m =? 4) || (m =? 6) || (m =? 9) || (m =? 11))%Z then 30%Z
  else 31%Z.

(** [2006-01-02] *)
Definition parseYMD (p : list ascii) : option (Z * Z * Z * list ascii) :=
  y ← fixedDigits 4 p; p1 ← expect "-" y.2;
  m ← fixedDigits 2 p1; p2 ← expect "-" m.2;
  d ← fixedDigits 2 p2;
  if ((1 <=? m.1) && (m.1 <=? 12) && (1 <=? d.1) && (d.1 <=? daysIn y.1 m.1))%Z
  then Some (y.1, m.1, d.1, d.2) else None.

(** [15:04:05], with the fractional seconds a parse accepts after it. *)
Definition parseHMS (p : list ascii) : option (Z * Z * Z * list ascii) :=
  h ← fixedDigits 2 p; p1 ← expect ":" h.2;
  mi ← fixedDigits 2 p1; p2 ← expect ":" mi.2;
  sec ← fixedDigits 2 p2;
  let rest :=
    match sec.2 with
    | "."%char :: p' =>
        match digits p' 0%Z O with
        | (_, O, _) => sec.2
        | (_, _, p'') => p''
        end
    | _ => sec.2
    end in
  if ((h.1 <? 24) && (mi.1 <? 60) && (sec.1 <? 60))%Z
  then Some (h.1, mi.1, sec.1, rest) else None.

(** [Z07:00] *)
Definition parseZone (p : list ascii) : option (Z * list ascii) :=
  match p with
  | "Z"%char :: p' => Some (0%Z, p')
  | sign :: p' =>
      if Ascii.eqb sign "+" || Ascii.eqb sign "-" then
        h ← fixedDigits 2 p'; p1 ← expect ":" h.2;
        mi ← fixedDigits 2 p1;
        if ((h.1 <? 24) && (mi.1 <? 60))%Z then
          let minutes := (60 * h.1 + mi.1)%Z in
          Some (if Ascii.eqb sign "-" then (- minutes)%Z else minutes, mi.2)
        else None
      else None
  | [] => None
  end.

Definition atEnd {A} (x : A) (p : list ascii) : option A :=
  match p with [] => Some x | _ => None end.

(** [time.Parse] for the three layouts the mapper uses. *)
Definition parseTime (layout s : string) : datetime + error :=
  let p := strings.bytes s in
  let failed : datetime + error :=
    inr ("parsing time " +:+ s +:+ " as " +:+ layout) in
  let found (t : option datetime) := from_option inl failed t in
  if layout =? "2006-01-02T15:04:05Z07:00" then
    found ('(y, m, d, p1) ← parseYMD p; p2 ← expect "T" p1;
           '(h, mi, sec, p3) ← parseHMS p2; '(z, p4) ← parseZone p3;
           atEnd {| year := y; month := m; day := d; hour := h;
                    minute := mi; second := sec; zone := z |} p4)
  else if layout =? "2006-01-02 15:04:05" then
    found ('(y, m, d, p1) ← parseYMD p; p2 ← expect " " p1;
           '(h, mi, sec, p3) ← parseHMS p2;
           atEnd {| year := y; month := m; day := d; hour := h;
                    minute := mi; second := sec; zone := 0 |} p3)
  else if layout =? "2006-01-02" then
    found ('(y, m, d, p1) ← parseYMD p;
           atEnd {| year := y; month := m; day := d; hour := 0;
                    minute := 0; second := 0; zone := 0 |} p1)
  else inr ("layout not supported: " +:+ layout).

Definition pad2 (n : Z) : string :=
  if (n <? 10)%Z then "0" +:+ pretty n else pretty n.

Definition printTime (t : datetime) : string :=
  pretty (year t) +:+ "-" +:+ pad2 (month t) +:+ "-" +:+ pad2 (day t)
  +:+ " " +:+ pad2 (hour t) +:+ ":" +:+ pad2 (minute t) +:+ ":"
  +:+ pad2 (second t) +:+ " "
  +:+ (if (zone t <? 0)%Z then "-" else "+")
  +:+ pad2 (Z.abs (zone t) / 60) +:+ pad2 (Z.abs (zone t) mod 60).

(** The reference library. *)
Definition lib : GoLib :=
  {| Regexp := re;
     regexp_Compile := compile;
     FindStringSubmatch := findStringSubmatch;
     Sscanf_d := scanInt;
     float64 := decimal;
     Sscanf_f := scanFloat;
     Sprint_float := printDecimal;
     Time := datetime;
     time_Parse := parseTime;
     Sprint_time := printTime |}.

End Reference.

(* ===================================================================== *)
(** ** Notions the properties are stated with                            *)
(* ===================================================================== *)







(** The format names [formatValue] has a case for. *)
Definition recognizedFormats : list string :=
  ["string"; "int"; "float"; "date"; "datetime"; "uppercase"; "lowercase";
   "trim"; "titlecase"; "bool"; "boolean"].

(** A mapping with its format replaced. *)
Definition withFormat (format : string) (mapping : transform.FieldMapping)
  : transform.FieldMapping :=
  {| transform.Source := transform.Source mapping;
     transform.Destination := transform.Destination mapping;
     transform.Format := format;
     transform.Default := transform.Default mapping;
     transform.Required := transform.Required mapping;
     transform.Extract := transform.Extract mapping;
     transform.NestedPath := transform.NestedPath mapping |}.

(** The three messages of a strict abort, for a mapping on [source]. *)
Definition abortMessage (source : string) (err : error) : Prop :=
  err = "required field '" +:+ source +:+ "' is missing"
  \/ err = "extraction pattern failed for field '" +:+ source +:+ "'"
  \/ exists cause, err = "formatting error for field '" +:+ source +:+ "': " +:+ cause.

Section Notions.
Context {L : GoLib}.

(** The state in which [Transform] enters its loop. *)
Definition start : transform.mapState :=
  {| transform.newData := ∅; transform.errors := [] |}.

(** Whether the loop over [event.Data] writes [key]. *)
Definition copied (cfg : transform.FieldMapperConfig) (key : string) : bool :=
  negb (transform.reads_true
          (transform.nameSet (map transform.Source (transform.Mappings cfg))) key)
  && negb (transform.reads_true
             (transform.nameSet (transform.ExcludeFields cfg)) key).

(** The events that a transformer lets through, transformed. *)
Definition survivors (t : pipeline.Transformer)
    (events : list pipeline.Event) : list pipeline.Event :=
  omap (fun event =>
          match pipeline.Transform t event with
          | (transformed, None) => Some transformed
          | (_, Some _) => None
          end) events.
End Notions.

(* ===================================================================== *)
(** ** Sample configurations, events and collaborators                   *)
(* ===================================================================== *)

Module Examples.
#[local] Existing Instance Reference.lib.

Definition newYear : Time :=
  {| Reference.year := 2024; Reference.month := 1; Reference.day := 1;
     Reference.hour := 0; Reference.minute := 0; Reference.second := 0;
     Reference.zone := 0 |}.

(** An insert event with the given id and data. *)
Definition eventOf (id : string) (data : gmap string value) : pipeline.Event :=
  {| pipeline.ID := id; pipeline.Timestamp := newYear;
     pipeline.Operation := "insert"; pipeline.Source_ := "mongodb";
     pipeline.Database := "app"; pipeline.Collection := "users";
     pipeline.Data := data; pipeline.Before := None |}.

(** A mapping with only its source and destination set. *)
Definition rename (source destination : string) : transform.FieldMapping :=
  {| transform.Source := source; transform.Destination := destination;
     transform.Format := ""; transform.Default := "";
     transform.Required := false; transform.Extract := "";
     transform.NestedPath := "" |}.

Definition extract (source destination pattern : string)
  : transform.FieldMapping :=
  {| transform.Source := source; transform.Destination := destination;
     transform.Format := ""; transform.Default := "";
     transform.Required := false; transform.Extract := pattern;
     transform.NestedPath := "" |}.

Definition required (source : string) : transform.FieldMapping :=
  {| transform.Source := source; transform.Destination := "";
     transform.Format := ""; transform.Default := "";
     transform.Required := true; transform.Extract := "";
     transform.NestedPath := "" |}.

(** Two mappings on [email], each with its own pattern. *)
Definition emailRules : transform.FieldMapperConfig :=
  {| transform.Mappings :=
       [extract "email" "username" "^([^@]+)@";
        extract "email" "domain" "@(.+)$"];
     transform.IncludeAll := false;
     transform.ExcludeFields := [];
     transform.StrictMode := false |}.

(** The second pattern, compiled. *)
Definition domainPattern : Reference.re :=
  Reference.Cat (Reference.Lit "@")
    (Reference.Cat (Reference.Group 1 (Reference.Plus true Reference.AnyChar))
       Reference.Eol).

(** The mapper built from [emailRules]: one extractor, under [email]. *)
Definition emailMapper : transform.FieldMapper :=
  {| transform.config := emailRules;
     transform.extractors := <["email" := domainPattern]> ∅ |}.

Definition emailEvent : pipeline.Event :=
  eventOf "1" (<["email" := VString "john.doe@example.com"]> ∅).

(** [a] is written to [b], and all other fields are included. *)
Definition renameRules : transform.FieldMapperConfig :=
  {| transform.Mappings := [rename "a" "b"];
     transform.IncludeAll := true;
     transform.ExcludeFields := [];
     transform.StrictMode := false |}.

Definition renameMapper : transform.FieldMapper :=
  {| transform.config := renameRules; transform.extractors := ∅ |}.

Definition renameEvent : pipeline.Event :=
  eventOf "2" (<["a" := VInt 1]> (<["b" := VInt 2]> ∅)).

(** A strict mapper that requires [id]. *)
Definition strictRules : transform.FieldMapperConfig :=
  {| transform.Mappings := [rename "name" "name"; required "id"];
     transform.IncludeAll := false;
     transform.ExcludeFields := [];
     transform.StrictMode := true |}.

Definition strictMapper : transform.FieldMapper :=
  {| transform.config := strictRules; transform.extractors := ∅ |}.

Definition namedEvent : pipeline.Event :=
  eventOf "3" (<["name" := VString "Ann"]> ∅).

(** A MongoDB server with the given documents and cursor error. *)
Definition serverWith (docs : list (gmap string value + error))
    (cursorErr : option error) : source.MongoDBSource :=
  {| source.uri := "mongodb://localhost"; source.database := "app";
     source.collection := "users"; source.connects := None;
     source.Find := fun _ _ =>
       inl {| source.documents := map (fun d => (d, newYear)) docs;
              source.cursorErr := cursorErr |};
     source.changeStream := ([], []) |}.

(** A PostgreSQL table with [count] rows whose latest cursor value is
    [latest]; every batch is written. *)
Definition tableWith (count : Z) (latest : sink.scanned) : sink.PostgreSQLSink :=
  sink.NewPostgreSQLSink "postgres://localhost" "users"
    {| sink.Open := None; sink.Ping := None; sink.Count := inl count;
       sink.Latest := fun _ => latest; sink.writeBatch := fun _ => None |}.

Definition syncSettings (force : bool) (field : string) (batch : Z)
  : config.Config :=
  {| config.Pipeline :=
       {| config.Name := "users";
          config.Sync :=
            {| config.InitialSync := true; config.ForceInitialSync := force;
               config.TimestampField := field; config.BatchSize := batch |} |} |}.

Definition oneUser : list (gmap string value + error) :=
  [inl (<["_id" := VInt 7]> (<["name" := VString "Ann"]> ∅))].

(** A transformer that fails on events without an id. *)
Definition needsID : pipeline.Transformer :=
  {| pipeline.Transform := fun event =>
       if pipeline.ID event =? ""
       then (event, Some "no id") else (event, None) |}.

Definition fakeSource (events : list pipeline.Event) (errors : list error)
  : pipeline.Source :=
  {| pipeline.Source_Connect := None;
     pipeline.Source_Read := (events, errors);
     pipeline.Source_Close := None |}.

Definition fakeSink (errors : list error) : pipeline.Sink :=
  {| pipeline.Sink_Connect := None;
     pipeline.Sink_Write := fun _ => errors;
     pipeline.Sink_Close := None |}.

Definition fakePipeline : pipeline.Pipeline :=
  pipeline.New "users"
    (fakeSource [eventOf "" ∅; namedEvent] ["read failed"])
    (fakeSink ["write failed"]) (Some needsID).
End Examples.

(* ===================================================================== *)
(** ** Further notions                                                   *)
(* ===================================================================== *)

(** The name under which a mapping writes its value. *)
Definition destName (mapping : transform.FieldMapping) : string :=
  if transform.Destination mapping =? "" then transform.Source mapping
  else transform.Destination mapping.

(** A mapping with its default replaced. *)
Definition withDefault (default : string) (mapping : transform.FieldMapping)
  : transform.FieldMapping :=
  {| transform.Source := transform.Source mapping;
     transform.Destination := transform.Destination mapping;
     transform.Format := transform.Format mapping;
     transform.Default := default;
     transform.Required := transform.Required mapping;
     transform.Extract := transform.Extract mapping;
     transform.NestedPath := transform.NestedPath mapping |}.

(** The mappings that carry an extract pattern. *)
Definition withPattern (mappings : list transform.FieldMapping)
  : list transform.FieldMapping :=
  List.filter (fun mapping => negb (transform.Extract mapping =? "")) mappings.



Section MoreNotions.
Context {L : GoLib}.

Definition isCloseSource (e : pipeline.effect) : bool :=
  match e with pipeline.CloseSource => true | _ => false end.

Definition isCloseSink (e : pipeline.effect) : bool :=
  match e with pipeline.CloseSink => true | _ => false end.

Definition isLog (e : pipeline.effect) : bool :=
  match e with pipeline.Log _ => true | _ => false end.

(** All the effects of a run but the deferred ones. *)
Definition beforeReturn (run : pipeline.RunOutcome) : list pipeline.effect :=
  pipeline.mainEffects run ++ pipeline.transformEffects run
  ++ pipeline.sourceDrainEffects run ++ pipeline.sinkDrainEffects run.

(** The documents a cursor decodes, and the errors of those it does not. *)
Definition decoded (docs : list ((gmap string value + error) * Time))
  : list (gmap string value) :=
  omap (fun d => match d.1 with inl doc => Some doc | inr _ => None end) docs.

Definition undecoded (docs : list ((gmap string value + error) * Time))
  : list error :=
  omap (fun d => match d.1 with inl _ => None | inr err => Some err end) docs.
End MoreNotions.

Module MoreExamples.
Import Examples.
#[local] Existing Instance Reference.lib.

(** No rules; every field but [password] is included. *)
Definition copyRules : transform.FieldMapperConfig :=
  {| transform.Mappings := [];
     transform.IncludeAll := true;
     transform.ExcludeFields := ["password"];
     transform.StrictMode := false |}.

Definition copyMapper : transform.FieldMapper :=
  {| transform.config := copyRules; transform.extractors := ∅ |}.

Definition secretEvent : pipeline.Event :=
  eventOf "5" (<["name" := VString "Ann"]> (<["password" := VString "x"]> ∅)).

(** A non-strict mapper that requires [id]. *)
Definition lenientRules : transform.FieldMapperConfig :=
  {| transform.Mappings := [rename "name" "full_name"; required "id"];
     transform.IncludeAll := false;
     transform.ExcludeFields := [];
     transform.StrictMode := false |}.

Definition lenientMapper : transform.FieldMapper :=
  {| transform.config := lenientRules; transform.extractors := ∅ |}.

(** A mapping on [count] with a default. *)
Definition countRule : transform.FieldMapping :=
  {| transform.Source := "count"; transform.Destination := "";
     transform.Format := ""; transform.Default := "";
     transform.Required := false; transform.Extract := "";
     transform.NestedPath := "" |}.

(** A user with a nested address. *)
Definition nestedData : gmap string value :=
  <["address" := VMap (<["city" := VString "Oslo"]> ∅)]> ∅.

(** An event of the given operation. *)
Definition eventWith (operation : string) (data : gmap string value)
  : pipeline.Event :=
  {| pipeline.ID := "6"; pipeline.Timestamp := newYear;
     pipeline.Operation := operation; pipeline.Source_ := "mongodb";
     pipeline.Database := "app"; pipeline.Collection := "users";
     pipeline.Data := data; pipeline.Before := None |}.

(** A transaction in which every statement and the commit succeed, and
    one in which every statement fails. *)
Definition goodTx : sink.Tx :=
  {| sink.ExecContext := fun _ => None; sink.Commit := None;
     sink.Rollback := sink.ErrTxDone |}.
Definition badTx : sink.Tx :=
  {| sink.ExecContext := fun _ => Some "constraint violated";
     sink.Commit := None; sink.Rollback := sink.RolledBack |}.

(** A table whose count query fails. *)
Definition brokenTable : sink.PostgreSQLSink :=
  sink.NewPostgreSQLSink "postgres://localhost" "users"
    {| sink.Open := None; sink.Ping := None; sink.Count := inr "timeout";
       sink.Latest := fun _ => sink.NoRows; sink.writeBatch := fun _ => None |}.

(** A server whose queries fail. *)
Definition downServer : source.MongoDBSource :=
  {| source.uri := "mongodb://localhost"; source.database := "app";
     source.collection := "users"; source.connects := None;
     source.Find := fun _ _ => inr "no reachable servers";
     source.changeStream := ([], []) |}.

(** A sink with batches of two. *)
Definition smallBatches : sink.PostgreSQLSink :=
  {| sink.connStr := "postgres://localhost"; sink.table := "users";
     sink.db := {| sink.Open := None; sink.Ping := None; sink.Count := inl 0%Z;
                   sink.Latest := fun _ => sink.NoRows;
                   sink.writeBatch := fun _ => None |};
     sink.batchSize := 2 |}.

(** A change document of an update. *)
Definition updateChange : gmap string value :=
  <["operationType" := VString "update"]>
    (<["fullDocument" := VMap (<["name" := VString "Ann"]> (<["age" := VInt 30]> ∅))]>
       (<["updateDescription" :=
            VMap (<["updatedFields" := VMap (<["age" := VInt 31]> ∅)]> ∅)]> ∅)).

(** A change document of a delete: the key of the document only. *)
Definition deleteChange : gmap string value :=
  <["operationType" := VString "delete"]>
    (<["documentKey" := VMap (<["_id" := VInt 7]> ∅)]> ∅).
End MoreExamples.

(* ===================================================================== *)
(** * Properties                                                         *)
(* ===================================================================== *)

(** ** Facts about the string functions *)

Section StringFacts.
Import strings.



Lemma bytes_app s1 s2 : bytes (s1 +:+ s2) = bytes s1 ++ bytes s2.
Proof. induction s1 as [|c s1 IH]; simpl; [done|]. by rewrite <- IH. Qed.












End StringFacts.

Section BoolFacts.
Import strings.




End BoolFacts.

(** ** The formats of [formatValue] *)

Section BoolFormat.
Context {L : GoLib}.
Import transform.










End BoolFormat.

Section Formats.
Context {L : GoLib}.
Import transform.

Lemma formatValue_unknown (v : value) (format : string) :
  format ∉ recognizedFormats -> formatValue v format = (v, None).
Proof.
  unfold recognizedFormats. rewrite !not_elem_of_cons.
  intros (?&?&?&?&?&?&?&?&?&?&?&_).
  unfold formatValue. destruct (format =? "") eqn:Hempty; [done|].
  by repeat (rewrite (proj2 (String.eqb_neq format _)) by done; simpl).
Qed.

Lemma formatValue_empty (v : value) : formatValue v "" = (v, None).
Proof. done. Qed.

Lemma compileExtractors_withFormat format mappings extractors :
  compileExtractors (map (withFormat format) mappings) extractors
  = compileExtractors mappings extractors.
Proof.
  revert extractors. induction mappings as [|m ms IH]; intros ex; simpl; [done|].
  destruct (negb (Extract m =? "")); [|done].
  destruct (regexp_Compile (Extract m)); [|done]. apply IH.
Qed.

Lemma applyMapping_unknown f data st mapping :
  Format mapping ∉ recognizedFormats ->
  applyMapping f data st mapping = applyMapping f data st (withFormat "" mapping).
Proof.
  intros Hformat. unfold applyMapping. simpl.
  destruct (getFieldValue _ _ _) as [found exists_].
  repeat match goal with
         | |- context [match ?x with _ => _ end] =>
             lazymatch x with
             | formatValue _ _ => fail
             | _ => destruct x eqn:?; try done
             end
         end;
    by rewrite formatValue_unknown, ?formatValue_empty.
Qed.

(** C10.  A format name outside the recognized set makes [formatValue]
    return its input unchanged with no error; a rule with such a
    format goes through the loop of [Transform] as the same rule with
    no format does, and the construction of the mapper does not look
    at formats at all. *)
Theorem unknown_format_is_identity (format : string) :
  format ∉ recognizedFormats ->
  (forall v : value, formatValue v format = (v, None))
  /\ (forall f data st mapping,
        Format mapping = format ->
        applyMapping f data st mapping
        = applyMapping f data st (withFormat "" mapping))
  /\ (forall mappings extractors,
        compileExtractors (map (withFormat format) mappings) extractors
        = compileExtractors mappings extractors).
Proof.
  intros Hformat. split; [|split].
  - intros v. by apply formatValue_unknown.
  - intros f data st mapping <-. by apply applyMapping_unknown.
  - intros. apply compileExtractors_withFormat.
Qed.
End Formats.

(** ** [Transform] *)

Section TransformFacts.
Context {L : GoLib}.
Import transform.

(** Case analysis along the blocks of the loop body. *)
Ltac loop_cases :=
  repeat first
    [ match goal with
      | |- context [extractors ?f !! ?k] => destruct (extractors f !! k)
      end
    | match goal with
      | |- context [FindStringSubmatch ?e ?s] =>
          destruct (FindStringSubmatch e s) as [|? [|? ?]]
      end
    | match goal with
      | |- context [formatValue ?v ?fm] =>
          destruct (formatValue v fm) as [? [?|]]
      end ];
  simpl.

Lemma applyMapping_error f data st mapping err :
  applyMapping f data st mapping = inr err ->
  StrictMode (config f) = true /\ abortMessage (Source mapping) err.
Proof.
  unfold applyMapping, abortMessage.
  destruct (getFieldValue _ _ _) as [found exists_].
  destruct (StrictMode (config f)), (Required mapping),
    (negb exists_ || is_nil found), (negb (Default mapping =? ""));
    simpl; loop_cases; intros [= <-]; (split; [reflexivity|]).
  all: first [ left; reflexivity
             | right; left; reflexivity
             | right; right; eexists; reflexivity ].
Qed.

Lemma applyMappings_error f data mappings st err :
  applyMappings f data mappings st = inr err ->
  StrictMode (config f) = true
  /\ exists mapping, mapping ∈ mappings /\ abortMessage (Source mapping) err.
Proof.
  revert st. induction mappings as [|m ms IH]; intros st; simpl; [done|].
  destruct (applyMapping f data st m) as [st'|err'] eqn:Hm.
  - intros [? (m' & ? & ?)]%IH. split; [done|]. exists m'. split; [by right|done].
  - intros [= <-]. apply applyMapping_error in Hm as [? ?].
    split; [done|]. exists m. split; [by left|done].
Qed.

Lemma Transform_unfold f event :
  Transform f event =
    match applyMappings f (pipeline.Data event) (Mappings (config f)) start with
    | inr err => (event, Some err)
    | inl st =>
        (pipeline.set_Data event
           (if IncludeAll (config f)
            then includeUnmapped (config f) (pipeline.Data event) (newData st)
            else newData st), None)
    end.
Proof.
  unfold Transform, Transform_logged. fold start.
  by destruct (applyMappings _ _ _ _).
Qed.


(** *** Unmapped fields *)

Lemma reads_true_foldl names (m : gmap string bool) key :
  reads_true (foldl (fun m name => <[name := true]> m) m names) key = true
  <-> key ∈ names \/ reads_true m key = true.
Proof.
  revert m. induction names as [|name names IH]; intros m; simpl.
  - rewrite elem_of_nil. tauto.
  - rewrite IH, elem_of_cons. unfold reads_true.
    destruct (decide (name = key)) as [->|Hne].
    + rewrite lookup_insert_eq. simpl. tauto.
    + rewrite lookup_insert_ne by done. intuition congruence.
Qed.

Lemma reads_true_nameSet names key :
  reads_true (nameSet names) key = true <-> key ∈ names.
Proof.
  unfold nameSet. rewrite reads_true_foldl. unfold reads_true.
  rewrite lookup_empty. simpl. intuition discriminate.
Qed.

Lemma copied_true cfg key :
  copied cfg key = true
  <-> (key ∉ map Source (Mappings cfg)) /\ (key ∉ ExcludeFields cfg).
Proof.
  unfold copied. rewrite andb_true_iff, !negb_true_iff.
  rewrite <- !reads_true_nameSet.
  by destruct (reads_true _ key), (reads_true _ key); intuition.
Qed.

Lemma includeUnmapped_lookup cfg data nd key :
  includeUnmapped cfg data nd !! key =
    match data !! key with
    | Some v => if copied cfg key then Some v else nd !! key
    | None => nd !! key
    end.
Proof.
  unfold includeUnmapped. revert key.
  apply (map_fold_weak_ind (fun r (m : gmap string value) =>
    forall key, r !! key =
      match m !! key with
      | Some v => if copied cfg key then Some v else nd !! key
      | None => nd !! key
      end)).
  - intros key. by rewrite lookup_empty.
  - intros i x m r Hi IH key. fold (copied cfg i).
    destruct (decide (i = key)) as [->|Hne].
    + rewrite lookup_insert_eq. destruct (copied cfg key).
      * by rewrite lookup_insert_eq.
      * by rewrite IH, Hi.
    + rewrite (lookup_insert_ne m) by done. rewrite <- IH.
      destruct (copied cfg i); [by rewrite lookup_insert_ne|done].
Qed.

(** C2, as amended.  With [IncludeAll] set, the output at a key that
    is in the original data and is neither a rule's source nor
    excluded is the original value, whatever the rules wrote there; at
    every other key it is what the rules wrote. *)
Theorem include_all_copies_over f event st key :
  IncludeAll (config f) = true ->
  applyMappings f (pipeline.Data event) (Mappings (config f)) start = inl st ->
  let out := pipeline.Data (Transform f event).1 in
  let unmapped :=
    is_Some (pipeline.Data event !! key)
    /\ (key ∉ map Source (Mappings (config f)))
    /\ (key ∉ ExcludeFields (config f)) in
  (unmapped -> out !! key = pipeline.Data event !! key)
  /\ (~ unmapped -> out !! key = newData st !! key).
Proof.
  intros Hall Hrun. rewrite Transform_unfold, Hrun, Hall. simpl.
  rewrite includeUnmapped_lookup. pose proof (copied_true (config f) key) as Hc.
  split.
  - intros [[v Hv] Hun]. rewrite Hv. apply Hc in Hun. by rewrite Hun.
  - intros Hnot. destruct (pipeline.Data event !! key) as [v|] eqn:Hv; [|done].
    destruct (copied (config f) key); [|done].
    exfalso. apply Hnot. split; [by eexists|]. by apply Hc.
Qed.
End TransformFacts.

(** ** The reconciler *)

Section ReconcilerFacts.
Context {L : GoLib}.
Import main.

Lemma PerformInitialSync_query m config :
  source.filter (source.PerformInitialSync m config)
  = (if negb (source.TimestampField config =? "")
        && negb (is_nil (source.FromTimestamp config))
     then <[source.TimestampField config := source.Gte (source.FromTimestamp config)]> ∅
     else ∅)
  /\ source.opts (source.PerformInitialSync m config)
     = {| source.OptBatchSize :=
            source.int32 (if (source.BatchSize config <=? 0)%Z then 1000%Z
                          else source.BatchSize config);
          source.OptSort :=
            if negb (source.TimestampField config =? "")
            then [(source.TimestampField config, 1%Z)] else [] |}.
Proof.
  unfold source.PerformInitialSync.
  destruct (source.Find m _ _) as [cursor|err]; [|done].
  destruct (source.syncLoop m _ _) as [[[events errors] progress] count].
  by destruct (source.cursorErr cursor).
Qed.

(** The initial sync is started once both connections are up and a
    strategy is chosen; the read is the source's, on the configuration
    built from the strategy. *)
Lemma performInitialSync_read cfg mongoSrc pgSink transformer fromTimestamp logged :
  source.Connect mongoSrc = None ->
  sink.Connect pgSink = None ->
  chooseFromTimestamp (config.Sync (config.Pipeline cfg)) pgSink
    = inl (fromTimestamp, logged) ->
  read (performInitialSync cfg (MongoDB mongoSrc) (PostgreSQL pgSink) transformer)
  = Some (source.PerformInitialSync mongoSrc
            {| source.Enabled := true;
               source.TimestampField :=
                 config.TimestampField (config.Sync (config.Pipeline cfg));
               source.FromTimestamp := fromTimestamp;
               source.BatchSize :=
                 if (config.BatchSize (config.Sync (config.Pipeline cfg)) <=? 0)%Z
                 then 1000%Z
                 else config.BatchSize (config.Sync (config.Pipeline cfg)) |}).
Proof.
  intros Hsrc Hsnk Hchoice. unfold performInitialSync.
  rewrite Hsrc, Hsnk, Hchoice.
  destruct (syncTransformWorker _ _) as [sent tlog].
  destruct (drainErrors _ (source.errors _) _) as [a alog].
  by destruct (drainErrors _ (sink.Write _ _) _) as [b blog].
Qed.

(** C5.  When the sink's emptiness check answers true without error,
    the strategy chosen is a full backfill whatever the force flag and
    the timestamp field are: no cursor is taken and, once both
    connections are up, the read is made with an empty filter. *)
Theorem empty_sink_full_backfill cfg mongoSrc pgSink transformer :
  sink.IsTableEmpty pgSink = (true, None) ->
  (exists logged,
     chooseFromTimestamp (config.Sync (config.Pipeline cfg)) pgSink
     = inl (VNil, logged))
  /\ (source.Connect mongoSrc = None -> sink.Connect pgSink = None ->
      exists run,
        read (performInitialSync cfg (MongoDB mongoSrc) (PostgreSQL pgSink)
                transformer) = Some run
        /\ source.filter run = ∅).
Proof.
  intros Hempty.
  assert (exists logged,
     chooseFromTimestamp (config.Sync (config.Pipeline cfg)) pgSink
     = inl (VNil, logged)) as [logged Hchoice].
  { unfold chooseFromTimestamp. rewrite Hempty.
    destruct (config.ForceInitialSync _); [by eexists|].
    destruct (negb _); by eexists. }
  split; [by exists logged|].
  intros Hsrc Hsnk. eexists. split.
  - by apply (performInitialSync_read _ _ _ _ VNil logged).
  - destruct (PerformInitialSync_query mongoSrc
      {| source.Enabled := true;
         source.TimestampField :=
           config.TimestampField (config.Sync (config.Pipeline cfg));
         source.FromTimestamp := VNil;
         source.BatchSize :=
           if (config.BatchSize (config.Sync (config.Pipeline cfg)) <=? 0)%Z
           then 1000%Z
           else config.BatchSize (config.Sync (config.Pipeline cfg)) |})
      as [-> _].
    simpl. by rewrite andb_false_r.
Qed.


Lemma drainErrors_occurred prefix errors errorOccurred :
  (drainErrors prefix errors errorOccurred).1
  = errorOccurred || negb (bool_decide (errors = [])).
Proof.
  revert errorOccurred. induction errors as [|err rest IH]; intros b; simpl.
  - by rewrite orb_false_r.
  - specialize (IH true). destruct (drainErrors prefix rest true). simpl in *.
    rewrite IH. by rewrite orb_true_r.
Qed.

Lemma performInitialSync_result cfg mongoSrc pgSink transformer run :
  let synced :=
    performInitialSync cfg (MongoDB mongoSrc) (PostgreSQL pgSink) transformer in
  read synced = Some run ->
  result synced
  = if negb (bool_decide (source.errors run = []))
       || negb (bool_decide (sink.Write pgSink (written synced) = []))
    then Some "errors occurred during initial sync" else None.
Proof.
  unfold performInitialSync.
  destruct (source.Connect mongoSrc); [done|].
  destruct (sink.Connect pgSink); [done|].
  destruct (chooseFromTimestamp _ _) as [[fromTimestamp logged]|]; [|done].
  destruct (syncTransformWorker _ _) as [sent tlog] eqn:Hworker.
  pose proof (drainErrors_occurred "Initial sync source error: "
                (source.errors (source.PerformInitialSync mongoSrc
                   {| source.Enabled := true;
                      source.TimestampField :=
                        config.TimestampField (config.Sync (config.Pipeline cfg));
                      source.FromTimestamp := fromTimestamp;
                      source.BatchSize :=
                        if (config.BatchSize (config.Sync (config.Pipeline cfg)) <=? 0)%Z
                        then 1000%Z
                        else config.BatchSize (config.Sync (config.Pipeline cfg)) |}))
                false) as Ha.
  pose proof (drainErrors_occurred "Initial sync sink error: "
                (sink.Write pgSink sent) false) as Hb.
  destruct (drainErrors _ (source.errors _) _) as [a alog].
  destruct (drainErrors _ (sink.Write _ _) _) as [b blog].
  simpl in *. intros [= <-]. by rewrite Ha, Hb.
Qed.

(** C7.  Once the initial sync has started its read: if an error is
    sent on the source's or on the sink's error channel,
    [performInitialSync] returns an error and [main] exits without
    running the pipeline; if none is sent on either,
    [performInitialSync] returns nil and [main] goes on to run the
    pipeline. *)
Theorem backfill_errors_stop_startup cfg src snk transformer run :
  config.InitialSync (config.Sync (config.Pipeline cfg)) = true ->
  let synced :=
    performInitialSync cfg (MongoDB src) (PostgreSQL snk) (Some transformer) in
  let started := main cfg src snk transformer in
  read synced = Some run ->
  (source.errors run <> [] \/ sink.Write snk (written synced) <> [] ->
   is_Some (result synced)
   /\ liveCapture started = None
   /\ exists line, exited started = Fatal line)
  /\ (source.errors run = [] /\ sink.Write snk (written synced) = [] ->
      result synced = None
      /\ initialSync started = Some synced
      /\ exists live, liveCapture started = Some live).
Proof.
  intros Henabled synced started Hread.
  pose proof (performInitialSync_result cfg src snk (Some transformer) run Hread)
    as Hresult. fold synced in Hresult.
  unfold started, main. rewrite Henabled. fold synced.
  split.
  - intros Herrors.
    assert (negb (bool_decide (source.errors run = []))
            || negb (bool_decide (sink.Write snk (written synced) = [])) = true)
      as Hany.
    { destruct Herrors as [H|H].
      - by rewrite (bool_decide_eq_false_2 _ H).
      - rewrite (bool_decide_eq_false_2 _ H). by rewrite orb_true_r. }
    rewrite Hany in Hresult. rewrite Hresult. simpl. eauto.
  - intros [Hsrc Hsnk].
    rewrite (bool_decide_eq_true_2 _ Hsrc), (bool_decide_eq_true_2 _ Hsnk)
      in Hresult.
    simpl in Hresult. rewrite Hresult. unfold runCDC. simpl. eauto.
Qed.
End ReconcilerFacts.

(** ** The pipeline engine *)

Section EngineFacts.
Context {L : GoLib}.
Import pipeline.

(** C8.  [Run] returns an error exactly when the source or the sink
    fails to connect; when both connect it returns nil whatever is
    sent on the error channels, each of whose errors is logged. *)
Theorem Run_fails_iff_connect_fails (p : Pipeline) :
  (is_Some (returned (Run p))
   <-> is_Some (Source_Connect (source p)) \/ is_Some (Sink_Connect (sink p)))
  /\ (Source_Connect (source p) = None -> Sink_Connect (sink p) = None ->
      returned (Run p) = None
      /\ (forall err, err ∈ (Source_Read (source p)).2 ->
            Log ("Source error: " +:+ err) ∈ sourceDrainEffects (Run p))
      /\ (forall err, err ∈ Sink_Write (sink p) (toSink (Run p)) ->
            Log ("Sink error: " +:+ err) ∈ sinkDrainEffects (Run p))).
Proof.
  unfold Run.
  destruct (Source_Connect (source p)) as [e1|] eqn:H1; simpl.
  { split; [|done]. split; eauto. }
  destruct (Sink_Connect (sink p)) as [e2|] eqn:H2; simpl.
  { split; [|done]. split; eauto. }
  destruct (Source_Read (source p)) as [events sourceErrors].
  destruct (transformWorker p events) as [sent effects]. simpl.
  split.
  - split; [by intros [? ?]|]. by intros [[? ?]|[? ?]].
  - intros _ _. split; [done|]. split.
    + intros err Herr. unfold drainSourceErrors.
      apply list_elem_of_In, in_flat_map. exists err.
      split; [by apply list_elem_of_In|by left].
    + intros err Herr. unfold drainSinkErrors.
      apply list_elem_of_In, in_flat_map. exists err.
      split; [by apply list_elem_of_In|by left].
Qed.

Lemma transformWorker_sent p t events :
  transformer p = Some t ->
  (transformWorker p events).1 = survivors t events.
Proof.
  intros Ht. induction events as [|event rest IH]; simpl; [done|].
  destruct (transformWorker p rest) as [sent effects]. simpl in IH.
  rewrite Ht. unfold survivors in *. simpl.
  destruct (Transform t event) as [transformed [err|]]; simpl; by rewrite IH.
Qed.

Lemma transformWorker_logs p t events event x err :
  transformer p = Some t ->
  event ∈ events ->
  Transform t event = (x, Some err) ->
  Log ("Error transforming event: " +:+ err) ∈ (transformWorker p events).2.
Proof.
  intros Ht Hin Herr. induction events as [|e rest IH]; simpl.
  - by apply elem_of_nil in Hin.
  - destruct (transformWorker p rest) as [sent effects]. simpl in IH.
    rewrite Ht. apply elem_of_cons in Hin as [<-|Hin].
    + rewrite Herr. simpl. by left.
    + specialize (IH Hin).
      destruct (Transform t e) as [transformed [err'|]]; simpl.
      * right. apply elem_of_app. by right.
      * apply elem_of_app. by right.
Qed.

(** C9.  With both connections up, the events handed to [Sink.Write]
    are the events the transformer returns without error, in order;
    an event on which it returns an error is not sent on, the error is
    logged, and [Run] still returns nil. *)
Theorem transform_error_drops_event (p : Pipeline) (t : Transformer) :
  transformer p = Some t ->
  Source_Connect (source p) = None ->
  Sink_Connect (sink p) = None ->
  returned (Run p) = None
  /\ toSink (Run p) = survivors t (Source_Read (source p)).1
  /\ (forall event x err,
        event ∈ (Source_Read (source p)).1 ->
        Transform t event = (x, Some err) ->
        Log ("Error transforming event: " +:+ err) ∈ transformEffects (Run p)).
Proof.
  intros Ht H1 H2. unfold Run. rewrite H1, H2.
  destruct (Source_Read (source p)) as [events sourceErrors].
  pose proof (transformWorker_sent p t events Ht) as Hsent.
  pose proof (transformWorker_logs p t events) as Hlogs.
  destruct (transformWorker p events) as [sent effects]. simpl in *.
  split; [done|]. split; [done|]. intros event x err Hin Herr.
  by apply (Hlogs event x err).
Qed.
End EngineFacts.

(** ** The embedding on the sample inputs *)

Section Concrete.
Import Examples.
#[local] Existing Instance Reference.lib.



(** C10, witness: the format ["toInt"] on the text ["42"]. *)
Lemma unknown_format_is_identity_witness :
  ("toInt" ∉ recognizedFormats)
  /\ transform.formatValue (L := Reference.lib) (VString "42") "toInt"
     = (VString "42", None).
Proof.
  assert ("toInt" ∉ recognizedFormats) as H.
  { unfold recognizedFormats. rewrite !not_elem_of_cons. repeat split; try discriminate.
    apply not_elem_of_nil. }
  split; [exact H|].
  apply (unknown_format_is_identity (L := Reference.lib) "toInt" H).
Defined.

(** C1, the code at the failing input.  The mapper built from the two
    rules on [email] holds one extractor, the second rule's; applied
    to [john.doe@example.com] both rules extract [example.com], so
    [username] is not [john.doe]. *)
Lemma same_source_extractors_collide :
  transform.NewFieldMapper emailRules = inl emailMapper
  /\ transform.Transform emailMapper emailEvent
     = (pipeline.set_Data emailEvent
          (<["username" := VString "example.com"]>
             (<["domain" := VString "example.com"]> ∅)), None).
Proof. split; reflexivity. Qed.

(** C2, counterexample.  The rule writes 1 at [b]; [b] is also a key
    of the original data, neither a source nor excluded, and the
    output at [b] is the original 2. *)
Lemma include_all_overwrites_rule_output :
  transform.NewFieldMapper renameRules = inl renameMapper
  /\ ("b" ∉ map transform.Source (transform.Mappings renameRules))
  /\ ("b" ∉ transform.ExcludeFields renameRules)
  /\ (exists st,
        transform.applyMappings renameMapper (pipeline.Data renameEvent)
          (transform.Mappings renameRules) start = inl st
        /\ transform.newData st !! "b" = Some (VInt 1))
  /\ pipeline.Data (transform.Transform renameMapper renameEvent).1 !! "b"
     = Some (VInt 2).
Proof.
  split; [reflexivity|]. split.
  { simpl. rewrite elem_of_cons, elem_of_nil. intuition discriminate. }
  split; [apply not_elem_of_nil|]. split; [|reflexivity].
  eexists. split; reflexivity.
Qed.

(** C2, witness: the key [a], a rule's source, is not copied. *)
Lemma include_all_copies_over_witness :
  transform.IncludeAll (transform.config renameMapper) = true
  /\ transform.applyMappings renameMapper (pipeline.Data renameEvent)
       (transform.Mappings (transform.config renameMapper)) start
     = inl {| transform.newData := <["b" := VInt 1]> ∅; transform.errors := [] |}
  /\ pipeline.Data (transform.Transform renameMapper renameEvent).1 !! "a"
     = None.
Proof.
  assert (transform.applyMappings renameMapper (pipeline.Data renameEvent)
       (transform.Mappings (transform.config renameMapper)) start
     = inl {| transform.newData := <["b" := VInt 1]> ∅; transform.errors := [] |})
    as Hrun by reflexivity.
  split; [reflexivity|]. split; [exact Hrun|].
  destruct (include_all_copies_over renameMapper renameEvent _ "a" eq_refl Hrun)
    as [_ Hkept].
  rewrite Hkept; [reflexivity|].
  intros (_ & Hsource & _). apply Hsource. simpl. by left.
Defined.

(** C5, witness: an empty table, with force set and a timestamp field
    configured. *)
Lemma empty_sink_full_backfill_witness :
  sink.IsTableEmpty (tableWith 0 sink.NoRows) = (true, None)
  /\ exists run,
       main.read (main.performInitialSync (syncSettings true "updated_at" 500)
                    (main.MongoDB (serverWith oneUser None))
                    (main.PostgreSQL (tableWith 0 sink.NoRows))
                    (Some transform.PassThroughTransformer)) = Some run
       /\ source.filter run = ∅.
Proof.
  split; [reflexivity|].
  apply (empty_sink_full_backfill (syncSettings true "updated_at" 500)
           (serverWith oneUser None) (tableWith 0 sink.NoRows)
           (Some transform.PassThroughTransformer));
    reflexivity.
Defined.



(** C7, witness: the cursor of the source fails after one document. *)
Lemma backfill_errors_stop_startup_witness :
  let cfg := syncSettings false "" 0 in
  let src := serverWith oneUser (Some "cursor lost") in
  let snk := tableWith 0 sink.NoRows in
  let synced :=
    main.performInitialSync cfg (main.MongoDB src) (main.PostgreSQL snk)
      (Some transform.PassThroughTransformer) in
  config.InitialSync (config.Sync (config.Pipeline cfg)) = true
  /\ (exists run, main.read synced = Some run /\ source.errors run <> [])
  /\ is_Some (main.result synced)
  /\ main.liveCapture (main.main cfg src snk transform.PassThroughTransformer)
     = None.
Proof.
  intros cfg src snk synced.
  assert (exists run, main.read synced = Some run /\ source.errors run <> [])
    as [run [Hread Herrors]].
  { eexists. split; [reflexivity|]. discriminate. }
  split; [reflexivity|]. split; [by exists run|].
  destruct (backfill_errors_stop_startup cfg src snk
              transform.PassThroughTransformer run eq_refl Hread)
    as [Hstop _].
  destruct (Hstop (or_introl Herrors)) as (? & ? & _). done.
Defined.

(** C8, witness: a run with one read error and one write error. *)
Lemma Run_fails_iff_connect_fails_witness :
  pipeline.returned (pipeline.Run fakePipeline) = None
  /\ pipeline.Log "Source error: read failed"
     ∈ pipeline.sourceDrainEffects (pipeline.Run fakePipeline)
  /\ pipeline.Log "Sink error: write failed"
     ∈ pipeline.sinkDrainEffects (pipeline.Run fakePipeline).
Proof.
  destruct (Run_fails_iff_connect_fails fakePipeline) as [_ H].
  destruct (H eq_refl eq_refl) as (Hnil & Hsrc & Hsnk).
  split; [exact Hnil|]. split.
  - apply (Hsrc "read failed"). by left.
  - apply (Hsnk "write failed"). by left.
Defined.

(** C9, witness: of two events, the transformer fails on the first. *)
Lemma transform_error_drops_event_witness :
  pipeline.transformer fakePipeline = Some needsID
  /\ pipeline.returned (pipeline.Run fakePipeline) = None
  /\ pipeline.toSink (pipeline.Run fakePipeline) = [namedEvent]
  /\ pipeline.Log "Error transforming event: no id"
     ∈ pipeline.transformEffects (pipeline.Run fakePipeline).
Proof.
  destruct (transform_error_drops_event fakePipeline needsID
              eq_refl eq_refl eq_refl) as (Hnil & Hsent & Hlog).
  split; [reflexivity|]. split; [exact Hnil|]. split.
  - rewrite Hsent. reflexivity.
  - apply (Hlog (eventOf "" ∅) (eventOf "" ∅) "no id").
    + by left.
    + reflexivity.
Defined.
End Concrete.

(* ===================================================================== *)
(** * Further properties                                                 *)
(* ===================================================================== *)

(** ** The field mapper *)

Section MapperFacts.
Context {L : GoLib}.
Import transform.

(** Case analysis along the blocks of the loop body. *)
Ltac mapper_cases :=
  repeat first
    [ match goal with
      | |- context [extractors ?f !! ?k] => destruct (extractors f !! k)
      end
    | match goal with
      | |- context [FindStringSubmatch ?e ?s] =>
          destruct (FindStringSubmatch e s) as [|? [|? ?]]
      end
    | match goal with
      | |- context [formatValue ?v ?fm] =>
          destruct (formatValue v fm) as [? [?|]]
      end ];
  simpl.

Lemma set_Data_same (event : pipeline.Event) :
  pipeline.set_Data event (pipeline.Data event) = event.
Proof. by destruct event. Qed.

Lemma applyMappings_app f data ms1 ms2 st :
  applyMappings f data (ms1 ++ ms2) st =
    match applyMappings f data ms1 st with
    | inl st1 => applyMappings f data ms2 st1
    | inr err => inr err
    end.
Proof.
  revert st. induction ms1 as [|m ms1 IH]; intros st; simpl; [done|].
  destruct (applyMapping f data st m); [apply IH|done].
Qed.

(** X1.  For a mapper with no mappings and includeAll set, Transform
    never fails and its output data holds exactly the input fields that
    are not listed in excludeFields, with their values unchanged; with
    no excludeFields the event is returned unchanged. *)
Theorem no_rules_include_all f event :
  Mappings (config f) = [] ->
  IncludeAll (config f) = true ->
  exists out,
    Transform f event = (pipeline.set_Data event out, None)
    /\ (forall key,
          out !! key = if decide (key ∈ ExcludeFields (config f)) then None
                       else pipeline.Data event !! key)
    /\ (ExcludeFields (config f) = [] -> Transform f event = (event, None)).
Proof.
  intros Hnone Hall. rewrite Transform_unfold, Hnone, Hall. simpl.
  eexists. split; [done|].
  assert (forall key,
    includeUnmapped (config f) (pipeline.Data event) ∅ !! key
    = if decide (key ∈ ExcludeFields (config f)) then None
      else pipeline.Data event !! key) as Hout.
  { intros key. rewrite includeUnmapped_lookup, lookup_empty.
    pose proof (copied_true (config f) key) as Hc. rewrite Hnone in Hc. simpl in Hc.
    destruct (decide (key ∈ ExcludeFields (config f))) as [Hin|Hout].
    - destruct (copied (config f) key); [|by destruct (_ !! key)].
      destruct Hc as [Hc _]. by destruct (Hc eq_refl).
    - destruct (copied (config f) key); [by destruct (_ !! key)|].
      destruct Hc as [_ Hc]. discriminate Hc. split; [apply not_elem_of_nil|done]. }
  split; [exact Hout|].
  intros Hex.
  assert (includeUnmapped (config f) (pipeline.Data event) ∅
          = pipeline.Data event) as ->.
  { apply map_eq. intros key. rewrite Hout, Hex.
    by destruct (decide _) as [?%elem_of_nil|]. }
  by rewrite set_Data_same.
Qed.

(** X2.  When strictMode is off, Transform never returns an error,
    whatever the mappings and the event: missing required fields and
    failed formats are logged and skipped. *)
Theorem nonstrict_never_fails f event :
  StrictMode (config f) = false -> (Transform f event).2 = None.
Proof.
  intros Hstrict. rewrite Transform_unfold.
  destruct (applyMappings _ _ _ _) as [st|err] eqn:Hrun; [done|].
  apply applyMappings_error in Hrun as [Htrue _]. congruence.
Qed.

(** What one pass of the loop body may add to [newData]. *)
Lemma applyMapping_keys f data st mapping st' key :
  applyMapping f data st mapping = inl st' ->
  is_Some (newData st' !! key) ->
  is_Some (newData st !! key) \/ key = destName mapping.
Proof.
  unfold applyMapping, destName.
  destruct (getFieldValue _ _ _) as [found exists_].
  destruct (StrictMode (config f)), (Required mapping),
    (negb exists_ || is_nil found), (negb (Default mapping =? ""));
    simpl; mapper_cases; intros [= <-]; simpl; auto;
    (destruct (decide (key = if Destination mapping =? "" then Source mapping
                             else Destination mapping)) as [->|Hne];
     [by right|rewrite lookup_insert_ne by done; by left]).
Qed.

Lemma applyMappings_keys f data mappings st st' key :
  applyMappings f data mappings st = inl st' ->
  is_Some (newData st' !! key) ->
  is_Some (newData st !! key)
  \/ exists mapping, mapping ∈ mappings /\ key = destName mapping.
Proof.
  revert st. induction mappings as [|m ms IH]; intros st; simpl.
  - intros [= <-]. by left.
  - destruct (applyMapping f data st m) as [st1|] eqn:Hm; [|done].
    intros Hrest Hkey. destruct (IH _ Hrest Hkey) as [Hst1|(m' & ? & ?)].
    + destruct (applyMapping_keys _ _ _ _ _ _ Hm Hst1) as [?|?]; [by left|].
      right. exists m. split; [by left|done].
    + right. exists m'. split; [by right|done].
Qed.

(** X3.  When includeAll is off and Transform succeeds, every key of the
    output data is the destination of some mapping (its source name when
    the destination is empty): no other input field reaches the output. *)
Theorem output_keys_are_destinations f event event' key :
  IncludeAll (config f) = false ->
  Transform f event = (event', None) ->
  is_Some (pipeline.Data event' !! key) ->
  exists mapping, mapping ∈ Mappings (config f) /\ key = destName mapping.
Proof.
  intros Hall. rewrite Transform_unfold, Hall.
  destruct (applyMappings _ _ _ _) as [st|] eqn:Hrun; [|done].
  intros [= <-]. simpl. intros Hkey.
  destruct (applyMappings_keys _ _ _ _ _ _ Hrun Hkey) as [Hempty|?]; [|done].
  unfold start in Hempty. simpl in Hempty. rewrite lookup_empty in Hempty.
  by destruct Hempty.
Qed.

(** X4.  A field listed in excludeFields that is no mapping's
    destination is absent from the output of every successful Transform,
    with includeAll set or not. *)
Theorem excluded_field_never_copied f event event' key :
  key ∈ ExcludeFields (config f) ->
  (forall mapping, mapping ∈ Mappings (config f) -> destName mapping <> key) ->
  Transform f event = (event', None) ->
  pipeline.Data event' !! key = None.
Proof.
  intros Hex Hdest. rewrite Transform_unfold.
  destruct (applyMappings _ _ _ _) as [st|] eqn:Hrun; [|done].
  intros [= <-]. simpl.
  assert (newData st !! key = None) as Hnone.
  { apply eq_None_not_Some. intros Hkey.
    destruct (applyMappings_keys _ _ _ _ _ _ Hrun Hkey) as [Hempty|(m & Hm & ->)].
    - unfold start in Hempty. simpl in Hempty. rewrite lookup_empty in Hempty.
      by destruct Hempty.
    - by apply (Hdest m). }
  destruct (IncludeAll (config f)); [|done].
  rewrite includeUnmapped_lookup, Hnone.
  destruct (pipeline.Data event !! key); [|done].
  destruct (copied (config f) key) eqn:Hc; [|done].
  apply copied_true in Hc as [_ Hc]. done.
Qed.
End MapperFacts.

Section MapperFacts2.
Context {L : GoLib}.
Import transform.

Lemma applyMapping_null_is_missing f data st mapping key :
  NestedPath mapping = "" ->
  applyMapping f (<[key := VNil]> data) st mapping
  = applyMapping f (delete key data) st mapping.
Proof.
  intros Hpath. unfold applyMapping, getFieldValue. rewrite Hpath. simpl.
  destruct (decide (key = Source mapping)) as [->|Hne].
  - by rewrite lookup_insert_eq, lookup_delete_eq.
  - by rewrite lookup_insert_ne, lookup_delete_ne.
Qed.

(** X5.  For mappings without a nested path, a source field that is
    present with a null value is treated exactly as a field that is
    absent: the mappings give the same output, the same logged errors
    and the same failure on both inputs. *)
Theorem null_is_missing f data mappings st key :
  Forall (fun mapping => NestedPath mapping = "") mappings ->
  applyMappings f (<[key := VNil]> data) mappings st
  = applyMappings f (delete key data) mappings st.
Proof.
  intros Hpaths. revert st.
  induction Hpaths as [|m ms Hm _ IH]; intros st; simpl; [done|].
  rewrite (applyMapping_null_is_missing f data st m key Hm).
  destruct (applyMapping _ _ _ _); [apply IH|done].
Qed.

(** X6.  A mapping's default is used only for a missing or null source:
    when the source field holds a non-null value, the mapping does the
    same whatever its default is. *)
Theorem present_value_ignores_default f data st mapping v default :
  NestedPath mapping = "" ->
  data !! Source mapping = Some v ->
  v <> VNil ->
  applyMapping f data st (withDefault default mapping)
  = applyMapping f data st mapping.
Proof.
  intros Hpath Hv Hnil. unfold applyMapping, getFieldValue. simpl.
  rewrite Hpath. simpl. rewrite Hv.
  assert (is_nil v = false) as -> by (by destruct v). simpl. done.
Qed.

(** X7.  Mappings are applied in order and a later one overwrites: a
    further mapping without nested path, extractor or format, whose
    source holds the non-null value v, sets its destination to v and
    leaves every other output key as the earlier mappings left it. *)
Theorem later_rule_overwrites f data mappings mapping st st1 v :
  NestedPath mapping = "" ->
  data !! Source mapping = Some v ->
  v <> VNil ->
  extractors f !! Source mapping = None ->
  Format mapping = "" ->
  applyMappings f data mappings st = inl st1 ->
  exists st2,
    applyMappings f data (mappings ++ [mapping]) st = inl st2
    /\ newData st2 !! destName mapping = Some v
    /\ (forall key, key <> destName mapping ->
          newData st2 !! key = newData st1 !! key).
Proof.
  intros Hpath Hv Hnil Hex Hformat Hrun.
  rewrite applyMappings_app, Hrun. simpl.
  unfold applyMapping, getFieldValue. rewrite Hpath. simpl. rewrite Hv.
  assert (is_nil v = false) as -> by (by destruct v). simpl.
  rewrite Hex, Hformat. simpl. fold (destName mapping).
  eexists. split; [done|]. simpl. split.
  - by rewrite lookup_insert_eq.
  - intros key Hne. by rewrite lookup_insert_ne.
Qed.

(** *** Construction *)

Lemma compileExtractors_ok mappings extractors :
  (forall mapping, mapping ∈ withPattern mappings ->
     exists re, regexp_Compile (Extract mapping) = inl re)
  <-> exists compiled, compileExtractors mappings extractors = inl compiled.
Proof.
  revert extractors. induction mappings as [|m ms IH]; intros ex; simpl.
  - split; [by eexists|]. intros _ m Hm. by apply elem_of_nil in Hm.
  - unfold withPattern in *. simpl.
    destruct (negb (Extract m =? "")) eqn:Hpat.
    + destruct (regexp_Compile (Extract m)) as [re|err] eqn:Hre.
      * rewrite <- IH. split.
        -- intros H m' Hm'. apply H. by right.
        -- intros H m' [->|Hm']%elem_of_cons; [by eexists|by apply H].
      * split; [|by intros [? ?]].
        intros H. destruct (H m) as [re Hre']; [by left|]. congruence.
    + apply IH.
Qed.

(** X8.  NewFieldMapper succeeds exactly when every non-empty extract
    pattern of the config compiles, and the mapper it returns holds the
    config it was given. *)
Theorem construction_checks_patterns cfg :
  ((forall mapping, mapping ∈ withPattern (Mappings cfg) ->
      exists re, regexp_Compile (Extract mapping) = inl re)
   <-> exists f, NewFieldMapper cfg = inl f)
  /\ (forall f, NewFieldMapper cfg = inl f -> config f = cfg).
Proof.
  unfold NewFieldMapper, NewFieldMapperWithLogger. split.
  - rewrite (compileExtractors_ok (Mappings cfg) ∅).
    destruct (compileExtractors _ _) as [compiled|err].
    + split; by eexists.
    + split; [by intros [? ?]|by intros [? ?]].
  - intros f. destruct (compileExtractors _ _); [|done]. by intros [= <-].
Qed.

(** A source no pattern is compiled for keeps what the map holds. *)
Lemma compileExtractors_other mappings extractors compiled source :
  compileExtractors mappings extractors = inl compiled ->
  source ∉ map Source (withPattern mappings) ->
  compiled !! source = extractors !! source.
Proof.
  revert extractors. induction mappings as [|m ms IH]; intros ex; simpl.
  - by intros [= <-].
  - unfold withPattern in *. simpl.
    destruct (negb (Extract m =? "")) eqn:Hpat; [|apply IH].
    destruct (regexp_Compile (Extract m)) as [re|]; [|done]. simpl.
    intros Hrest [Hne Hout]%not_elem_of_cons.
    rewrite (IH _ Hrest Hout). by rewrite lookup_insert_ne.
Qed.

Lemma compileExtractors_own mappings extractors compiled mapping :
  compileExtractors mappings extractors = inl compiled ->
  NoDup (map Source (withPattern mappings)) ->
  mapping ∈ withPattern mappings ->
  exists re,
    regexp_Compile (Extract mapping) = inl re
    /\ compiled !! Source mapping = Some re.
Proof.
  revert extractors. induction mappings as [|m ms IH]; intros ex; simpl.
  - intros _ _ Hin. by apply elem_of_nil in Hin.
  - unfold withPattern in *. simpl.
    destruct (negb (Extract m =? "")) eqn:Hpat; [|apply IH].
    destruct (regexp_Compile (Extract m)) as [re|] eqn:Hre; [|done]. simpl.
    intros Hrest [Hfresh Hdup]%NoDup_cons [->|Hin]%elem_of_cons.
    + exists re. split; [done|].
      rewrite (compileExtractors_other _ _ _ _ Hrest Hfresh).
      by rewrite lookup_insert_eq.
    + by apply (IH _ Hrest Hdup).
Qed.

(** X9.  When the mappings that carry an extract pattern have pairwise
    distinct sources, the mapper built holds, under each such mapping's
    source, that mapping's own compiled pattern, and no extractor under
    any other source. *)
Theorem distinct_sources_keep_own_pattern cfg f mapping :
  NewFieldMapper cfg = inl f ->
  NoDup (map Source (withPattern (Mappings cfg))) ->
  (mapping ∈ withPattern (Mappings cfg) ->
   exists re,
     regexp_Compile (Extract mapping) = inl re
     /\ extractors f !! Source mapping = Some re)
  /\ (Source mapping ∉ map Source (withPattern (Mappings cfg)) ->
      extractors f !! Source mapping = None).
Proof.
  unfold NewFieldMapper, NewFieldMapperWithLogger.
  destruct (compileExtractors _ _) as [compiled|] eqn:Hc; [|done].
  intros [= <-] Hdup. simpl. split.
  - intros Hin. by apply (compileExtractors_own _ _ _ _ Hc Hdup).
  - intros Hout. by rewrite (compileExtractors_other _ _ _ _ Hc Hout).
Qed.
End MapperFacts2.

Section PathFacts.
Context {L : GoLib}.
Import transform.

Lemma split_go_app sep cur l1 l2 :
  strings.split_go sep cur (l1 ++ sep :: l2)
  = match strings.split_go sep cur l1 with
    | [] => strings.split_go sep [] l2
    | pieces => pieces ++ strings.split_go sep [] l2
    end.
Proof.
  revert cur. induction l1 as [|c l1 IH]; intros cur; simpl.
  - by rewrite Ascii.eqb_refl.
  - destruct (Ascii.eqb c sep).
    + rewrite IH. by destruct (strings.split_go sep [] l1).
    + apply IH.
Qed.

Lemma split_go_nonempty sep cur l : strings.split_go sep cur l <> [].
Proof.
  revert cur. induction l as [|c l IH]; intros cur; simpl; [done|].
  destruct (Ascii.eqb c sep); [done|apply IH].
Qed.

Lemma Split_dot p q :
  strings.Split (p +:+ "." +:+ q) "." = strings.Split p "." ++ strings.Split q ".".
Proof.
  unfold strings.Split. rewrite !bytes_app. simpl.
  rewrite split_go_app.
  destruct (strings.split_go "." [] (strings.bytes p)) eqn:H; [|done].
  by apply split_go_nonempty in H.
Qed.

Lemma walkPath_app parts1 parts2 v :
  walkPath (parts1 ++ parts2) v
  = match walkPath parts1 v with
    | (inner, true) => walkPath parts2 inner
    | (_, false) => (VNil, false)
    end.
Proof.
  revert v. induction parts1 as [|part rest IH]; intros v; simpl; [done|].
  destruct v; try done. destruct (_ !! part); [apply IH|done].
Qed.

Lemma walkPath_not_found parts v x :
  walkPath parts v = (x, false) -> x = VNil.
Proof.
  revert v. induction parts as [|part rest IH]; intros v; simpl; [done|].
  destruct v; try by intros [= <-]. destruct (_ !! part); [apply IH|by intros [= <-]].
Qed.

Lemma append_nonempty p q : p <> "" -> p +:+ q <> "".
Proof. by destruct p. Qed.

(** X10.  A nested path p.q with non-empty parts is resolved by
    resolving p and then q inside the map found there; when p is not
    found, or what is found is not a map, the lookup reports not found. *)
Theorem nested_path_composes data source p q :
  p <> "" -> q <> "" ->
  getFieldValue data source (p +:+ "." +:+ q)
  = match getFieldValue data source p with
    | (VMap inner, true) => getFieldValue inner source q
    | _ => (VNil, false)
    end.
Proof.
  intros Hp Hq. unfold getFieldValue.
  rewrite (proj2 (String.eqb_neq _ _) (append_nonempty p _ Hp)).
  rewrite (proj2 (String.eqb_neq _ _) Hp), (proj2 (String.eqb_neq _ _) Hq).
  rewrite Split_dot, walkPath_app.
  destruct (walkPath (strings.Split p ".") (VMap data)) as [inner found] eqn:Hwalk.
  destruct found.
  - destruct inner; try done;
      (destruct (strings.Split q ".") eqn:Hsplit;
       [by apply split_go_nonempty in Hsplit|done]).
  - apply walkPath_not_found in Hwalk as ->. done.
Qed.
End PathFacts.

Section CaseFacts.
Import strings.




Lemma isSpace_toUpper c : isSpace (toUpper c) = isSpace c.
Proof. by destruct c as [[] [] [] [] [] [] [] []]. Qed.






(** *** [TrimSpace] *)





(** *** [Fields] and [Join] *)




End CaseFacts.

Section TitleFacts.
Import strings.


End TitleFacts.

Section FormatFacts.
Context {L : GoLib}.
Import transform.

End FormatFacts.

(** ** The pipeline engine *)

Section EngineFacts2.
Context {L : GoLib}.
Import pipeline.

Lemma ifMetrics_no_close p calls :
  Forall (fun e => isCloseSource e = false /\ isCloseSink e = false) calls ->
  Forall (fun e => isCloseSource e = false /\ isCloseSink e = false)
    (ifMetrics p calls).
Proof. unfold ifMetrics. by destruct (metrics p). Qed.

Lemma count_ifMetrics (test : effect -> bool) p calls :
  forallb (fun e => negb (test e)) calls = true ->
  length (List.filter test (ifMetrics p calls)) = 0%nat.
Proof.
  unfold ifMetrics. destruct (metrics p); [|done].
  induction calls as [|e calls IH]; simpl; [done|].
  intros [He Hrest]%andb_true_iff. apply negb_true_iff in He. rewrite He. auto.
Qed.

(** X12.  Run closes the source exactly once when the source connected
    and never otherwise, closes the sink exactly once when both
    connected and never otherwise, and when both connected it closes the
    sink before the source. *)
Theorem connections_closed_once (p : Pipeline) :
  length (List.filter isCloseSource (deferred (Run p)))
  = (match Source_Connect (source p) with Some _ => 0 | None => 1 end)%nat
  /\ length (List.filter isCloseSink (deferred (Run p)))
     = (match Source_Connect (source p), Sink_Connect (sink p) with
        | None, None => 1
        | _, _ => 0
        end)%nat
  /\ (Source_Connect (source p) = None -> Sink_Connect (sink p) = None ->
      exists between after,
        deferred (Run p) = CloseSink :: between ++ CloseSource :: after).
Proof.
  unfold Run.
  destruct (Source_Connect (source p)) as [e1|]; simpl.
  { split; [by apply count_ifMetrics|]. split; [by apply count_ifMetrics|done]. }
  destruct (Sink_Connect (sink p)) as [e2|]; simpl.
  { rewrite !List.filter_app, !length_app, !count_ifMetrics by done.
    done. }
  destruct (Source_Read (source p)) as [events sourceErrors].
  destruct (transformWorker p events) as [sent effects]. simpl.
  rewrite !List.filter_app, !length_app. simpl.
  rewrite !List.filter_app, !length_app, !count_ifMetrics by done.
  split; [done|]. split; [done|]. intros _ _.
  by exists (ifMetrics p [SetSinkConnected false]),
    (ifMetrics p [SetSourceConnected false] ++ ifMetrics p [SetPipelineRunning false]).
Qed.

(** *** Every event is sent on or logged *)

Lemma transformWorker_accounts p events :
  (length (transformWorker p events).1
   + length (List.filter isLog (transformWorker p events).2))%nat
  = length events.
Proof.
  induction events as [|event rest IH]; simpl; [done|].
  destruct (transformWorker p rest) as [sent effects]. simpl in IH.
  destruct (transformer p) as [t|].
  - destruct (Transform t event) as [transformed [err|]]; simpl;
      rewrite List.filter_app, length_app, count_ifMetrics by done; simpl; lia.
  - simpl. rewrite List.filter_app, length_app, count_ifMetrics by done.
    simpl. lia.
Qed.

(** X13.  When both connections succeed, every event read from the
    source is either sent to the sink or logged by the transform
    goroutine as failed: the two counts add up to the number of events
    read. *)
Theorem every_event_sent_or_logged (p : Pipeline) :
  Source_Connect (source p) = None ->
  Sink_Connect (sink p) = None ->
  (length (toSink (Run p))
   + length (List.filter isLog (transformEffects (Run p))))%nat
  = length (Source_Read (source p)).1.
Proof.
  intros H1 H2. unfold Run. rewrite H1, H2.
  destruct (Source_Read (source p)) as [events sourceErrors].
  pose proof (transformWorker_accounts p events) as H.
  by destruct (transformWorker p events) as [sent effects].
Qed.

(** *** A transformer that does not fail *)

Lemma transformWorker_total p events :
  (forall event, event ∈ events ->
     match transformer p with
     | Some t => (Transform t event).2 = None
     | None => True
     end) ->
  (transformWorker p events).1
  = map (fun event =>
           match transformer p with
           | Some t => (Transform t event).1
           | None => event
           end) events.
Proof.
  induction events as [|event rest IH]; simpl; [done|]. intros Hok.
  destruct (transformWorker p rest) as [sent effects]. simpl in IH.
  assert (event ∈ event :: rest) as Hhere by (by left).
  pose proof (Hok event Hhere) as Hevent.
  destruct (transformer p) as [t|].
  - destruct (Transform t event) as [transformed [err|]]; simpl in *; [done|].
    f_equal. apply IH. intros e He. apply Hok. by right.
  - simpl. f_equal. by apply IH.
Qed.

(** X14.  When both connections succeed and the transformer fails on
    none of the events read (or there is no transformer), the sink
    receives the transformed events, one for each event read, in the
    order read. *)
Theorem unfailing_transformer_forwards_all (p : Pipeline) :
  Source_Connect (source p) = None ->
  Sink_Connect (sink p) = None ->
  (forall event, event ∈ (Source_Read (source p)).1 ->
     match transformer p with
     | Some t => (Transform t event).2 = None
     | None => True
     end) ->
  toSink (Run p)
  = map (fun event =>
           match transformer p with
           | Some t => (Transform t event).1
           | None => event
           end) (Source_Read (source p)).1.
Proof.
  intros H1 H2 Hok. unfold Run. rewrite H1, H2.
  destruct (Source_Read (source p)) as [events sourceErrors]. simpl in *.
  pose proof (transformWorker_total p events Hok) as H.
  by destruct (transformWorker p events) as [sent effects].
Qed.
End EngineFacts2.

(** ** The MongoDB source *)

Section SourceFacts.
Context {L : GoLib}.
Import source.

Lemma syncLoop_events m docs count :
  let '(events, errors, _, n) := syncLoop m docs count in
  map pipeline.Data events = decoded docs
  /\ errors = map (fun err => "failed to decode document: " +:+ err) (undecoded docs)
  /\ n = (count + Z.of_nat (length events))%Z
  /\ Forall (fun event =>
               pipeline.Operation event = "insert"
               /\ pipeline.Source_ event = "mongodb"
               /\ pipeline.Database event = database m
               /\ pipeline.Collection event = collection m
               /\ pipeline.ID event
                  = Sprintf_v (default VNil (pipeline.Data event !! "_id")))
       events.
Proof.
  revert count. induction docs as [|[[doc|err] now] rest IH]; intros count; simpl.
  - repeat split; [lia|constructor].
  - specialize (IH (count + 1)%Z).
    destruct (syncLoop m rest (count + 1)) as [[[events errors] logged] n].
    destruct IH as (Hdata & Herr & Hn & Hall). simpl.
    repeat split; [by f_equal|done|lia|]. constructor; [done|done].
  - specialize (IH count).
    destruct (syncLoop m rest count) as [[[events errors] logged] n].
    destruct IH as (Hdata & Herr & Hn & Hall). unfold decoded, undecoded in *.
    simpl. repeat split; [done|by f_equal|done|done].
Qed.

(** X15.  When the backfill query succeeds, PerformInitialSync emits one
    insert event per decodable document, in cursor order, with the
    document as its data, the source's database and collection and the
    rendering of _id as its ID; it sends one error per undecodable
    document and then the cursor's error, if any. *)
Theorem initial_sync_one_event_per_document m config cursor :
  let run := PerformInitialSync m config in
  Find m (filter run) (opts run) = inl cursor ->
  map pipeline.Data (events run) = decoded (documents cursor)
  /\ errors run
     = map (fun err => "failed to decode document: " +:+ err)
         (undecoded (documents cursor))
       ++ match cursorErr cursor with
          | Some err => ["cursor error during initial sync: " +:+ err]
          | None => []
          end
  /\ Forall (fun event =>
               pipeline.Operation event = "insert"
               /\ pipeline.Source_ event = "mongodb"
               /\ pipeline.Database event = database m
               /\ pipeline.Collection event = collection m
               /\ pipeline.ID event
                  = Sprintf_v (default VNil (pipeline.Data event !! "_id")))
       (events run).
Proof.
  intros run Hfind. unfold run in *. clear run.
  destruct (PerformInitialSync_query m config) as [Hf Ho].
  rewrite Hf, Ho in Hfind. unfold PerformInitialSync. cbv zeta. rewrite Hfind.
  pose proof (syncLoop_events m (documents cursor) 0) as Hloop.
  destruct (syncLoop m (documents cursor) 0) as [[[events errors] logged] n].
  destruct Hloop as (Hdata & Herr & _ & Hall).
  destruct (cursorErr cursor); simpl; rewrite ?app_nil_r; by subst.
Qed.

Lemma int32_small n : (- 2 ^ 31 <= n < 2 ^ 31)%Z -> int32 n = n.
Proof. intros H. unfold int32. rewrite Z.mod_small; lia. Qed.

Lemma int32_range n : (- 2 ^ 31 <= int32 n < 2 ^ 31)%Z.
Proof.
  unfold int32. pose proof (Z.mod_pos_bound (n + 2 ^ 31) (2 ^ 32)). lia.
Qed.

(** X16.  The batch size PerformInitialSync requests is always a 32-bit
    value: 1000 when the configured size is not positive, and the
    configured size itself when that is positive and below 2^31. *)
Theorem batch_size_requested m config :
  let requested := OptBatchSize (opts (PerformInitialSync m config)) in
  (- 2 ^ 31 <= requested < 2 ^ 31)%Z
  /\ ((BatchSize config <= 0)%Z -> requested = 1000%Z)
  /\ ((0 < BatchSize config < 2 ^ 31)%Z -> requested = BatchSize config).
Proof.
  destruct (PerformInitialSync_query m config) as [_ ->]. simpl.
  split; [apply int32_range|]. split.
  - intros Hle. apply Z.leb_le in Hle. rewrite Hle. by apply int32_small.
  - intros Hin. assert ((BatchSize config <=? 0)%Z = false) as ->
      by (apply Z.leb_gt; lia).
    apply int32_small. lia.
Qed.

(** *** Change events *)

Lemma convertBSONToMap_copy doc : convertBSONToMap doc = doc.
Proof.
  unfold convertBSONToMap.
  apply (map_fold_weak_ind (fun r (m : gmap string value) => r = m)); [done|].
  by intros i x m r _ ->.
Qed.

Lemma overlay_lookup (base over : gmap string value) key :
  map_fold (fun k v data => <[k := v]> data) base over !! key
  = match over !! key with
    | Some v => Some v
    | None => base !! key
    end.
Proof.
  revert key.
  apply (map_fold_weak_ind (fun r (m : gmap string value) =>
    forall key, r !! key = match m !! key with
                           | Some v => Some v
                           | None => base !! key
                           end)).
  - intros key. by rewrite lookup_empty.
  - intros i x m r Hi IH key. destruct (decide (i = key)) as [->|Hne].
    + by rewrite !lookup_insert_eq.
    + by rewrite !lookup_insert_ne, IH.
Qed.

(** X17.  For a change document with a fullDocument and an
    updateDescription with updatedFields, the event's data holds at
    every key the updated field when there is one and the full
    document's field otherwise. *)
Theorem updated_fields_overlay_full_document m changeDoc now full desc updated key :
  changeDoc !! "fullDocument" = Some (VMap full) ->
  changeDoc !! "updateDescription" = Some (VMap desc) ->
  desc !! "updatedFields" = Some (VMap updated) ->
  pipeline.Data (convertChangeEvent m changeDoc now) !! key
  = match updated !! key with
    | Some v => Some v
    | None => full !! key
    end.
Proof.
  intros Hfull Hdesc Hupdated. unfold convertChangeEvent. simpl.
  rewrite Hfull, Hdesc, Hupdated, !convertBSONToMap_copy.
  apply overlay_lookup.
Qed.

Lemma change_without_document_has_no_data m changeDoc now :
  changeDoc !! "fullDocument" = None ->
  changeDoc !! "updateDescription" = None ->
  pipeline.Data (convertChangeEvent m changeDoc now) = ∅.
Proof.
  intros Hfull Hdesc. unfold convertChangeEvent. simpl. by rewrite Hfull, Hdesc.
Qed.

(** X18.  On an opened change stream, Read emits one event per decodable
    change, in stream order, sends one 'failed to decode change event'
    error per undecodable change, and then a 'change stream error' if
    the stream ended with an error. *)
Theorem change_stream_one_event_per_change m stream :
  (ReadStream m (inl stream)).1
  = omap (fun d => match d.1 with
                   | inl changeDoc => Some (convertChangeEvent m changeDoc d.2)
                   | inr _ => None
                   end) (documents stream)
  /\ (ReadStream m (inl stream)).2
     = map (fun err => "failed to decode change event: " +:+ err)
         (undecoded (documents stream))
       ++ match cursorErr stream with
          | Some err => ["change stream error: " +:+ err]
          | None => []
          end.
Proof.
  unfold ReadStream.
  assert ((streamLoop m (documents stream)).1
          = omap (fun d => match d.1 with
                           | inl changeDoc => Some (convertChangeEvent m changeDoc d.2)
                           | inr _ => None
                           end) (documents stream)
          /\ (streamLoop m (documents stream)).2
             = map (fun err => "failed to decode change event: " +:+ err)
                 (undecoded (documents stream))) as Hloop.
  { unfold undecoded.
    induction (documents stream) as [|[[doc|err] now] rest [IH1 IH2]]; simpl;
      [done|..]; destruct (streamLoop m rest) as [events errors]; simpl in *;
      by subst. }
  destruct (streamLoop m (documents stream)) as [events errors].
  simpl in Hloop. destruct Hloop as [Hevents Herrors]. subst events errors.
  destruct (cursorErr stream); simpl; by rewrite ?app_nil_r.
Qed.
End SourceFacts.

(** ** The PostgreSQL sink *)

Section SinkFacts.
Context {L : GoLib}.
Import sink.

(** *** Batches *)

Lemma writeLoop_batches p events batch :
  writeLoop p events batch
  = omap (writeBatch (db p)) (batchesOf (batchSize p) events batch).
Proof.
  revert batch. induction events as [|event rest IH]; intros batch; simpl.
  - destruct (0 <? length batch)%nat; simpl; [|done].
    by destruct (writeBatch (db p) batch).
  - destruct (batchSize p <=? length (batch ++ [event]))%nat; simpl; [|apply IH].
    rewrite IH. by destruct (writeBatch (db p) (batch ++ [event])).
Qed.

Lemma batchesOf_concat size events batch :
  concat (batchesOf size events batch) = batch ++ events.
Proof.
  revert batch. induction events as [|event rest IH]; intros batch; simpl.
  - destruct batch; simpl; [done|]. by rewrite app_nil_r.
  - destruct (size <=? length (batch ++ [event]))%nat; simpl; rewrite IH.
    + by rewrite <- app_assoc.
    + by rewrite <- app_assoc.
Qed.

Lemma batchesOf_sizes size events batch :
  (length batch < size)%nat ->
  Forall (fun b => (0 < length b <= size)%nat) (batchesOf size events batch)
  /\ (forall i b, batchesOf size events batch !! i = Some b ->
        (S i < length (batchesOf size events batch))%nat -> length b = size).
Proof.
  revert batch. induction events as [|event rest IH]; intros batch Hlt; simpl.
  - destruct batch as [|e batch]; simpl.
    + split; [constructor|]. intros i b Hi. by rewrite lookup_nil in Hi.
    + split; [constructor; [simpl in *; lia|constructor]|].
      intros [|i] b Hi Hlen; simpl in *; lia.
  - assert (length (batch ++ [event]) = S (length batch)) as Hlen
      by (rewrite length_app; simpl; lia).
    destruct (size <=? length (batch ++ [event]))%nat eqn:Hfull.
    + apply Nat.leb_le in Hfull.
      destruct (IH [] ltac:(simpl; lia)) as [Hall Hlast]. split.
      * constructor; [lia|done].
      * intros [|i] b Hi Hi'; simpl in *.
        -- injection Hi as <-. lia.
        -- apply (Hlast i b Hi). lia.
    + apply Nat.leb_gt in Hfull. apply IH. lia.
Qed.

(** X20.  With a positive batch size, Write hands writeBatch consecutive
    batches whose concatenation is the events received, in order; every
    batch is non-empty and no longer than the batch size, every batch
    but the last has exactly the batch size, and the errors sent are
    those of the batches, in order. *)
Theorem write_batches_partition_events p events :
  (0 < batchSize p)%nat ->
  let batches := batchesOf (batchSize p) events [] in
  Write p events = omap (writeBatch (db p)) batches
  /\ concat batches = events
  /\ Forall (fun b => (0 < length b <= batchSize p)%nat) batches
  /\ (forall i b, batches !! i = Some b -> (S i < length batches)%nat ->
        length b = batchSize p).
Proof.
  intros Hsize batches. unfold Write. split; [apply writeLoop_batches|].
  split; [apply batchesOf_concat|]. by apply batchesOf_sizes.
Qed.

(** *** Identifiers *)

(** X21.  Connect on a table name that is not a plain identifier, and
    GetLatestTimestamp on such a field name, fail without depending on
    the database: with the same table name the answer is the same for
    every database handle. *)
Theorem invalid_names_rejected_unasked p p' field :
  table p = table p' ->
  (validTableName (table p) = false ->
   Connect p = Connect p' /\ is_Some (Connect p))
  /\ (validTableName field = false ->
      GetLatestTimestamp p field = GetLatestTimestamp p' field
      /\ is_Some (GetLatestTimestamp p field).2).
Proof.
  intros Htable. split.
  - intros Hbad. unfold Connect. rewrite <- Htable, Hbad. simpl. eauto.
  - intros Hbad. unfold GetLatestTimestamp. rewrite Hbad.
    destruct (field =? ""); simpl; eauto.
Qed.

(** *** One batch, one transaction *)

Lemma writeEvents_app p tx pre post :
  writeEvents p tx (pre ++ post)
  = match writeEvents p tx pre with
    | (Some err, executed, logged) => (Some err, executed, logged)
    | (None, executed, logged) =>
        let '(err, executed', logged') := writeEvents p tx post in
        (err, executed ++ executed', logged ++ logged')
    end.
Proof.
  induction pre as [|event pre IH]; simpl.
  - by destruct (writeEvents p tx post) as [[err ex] lg].
  - destruct (writeEvent p tx event) as [[[err|] ex] lg]; [done|].
    rewrite IH. destruct (writeEvents p tx pre) as [[[err|] ex1] lg1]; [done|].
    destruct (writeEvents p tx post) as [[err ex2] lg2].
    by rewrite !app_assoc.
Qed.

(** X22.  When an event of a batch fails after the events before it
    succeeded, writeBatch returns 'failed to write event: <error>',
    executes no statement for the events after it and does not commit;
    only the deferred rollback follows. *)
Theorem failed_event_aborts_batch p tx pre event post executed logged
    err executed' logged' :
  writeEvents p tx pre = (None, executed, logged) ->
  writeEvent p tx event = (Some err, executed', logged') ->
  writeBatchTx p (inl tx) (pre ++ event :: post)
  = {| batchErr := Some ("failed to write event: " +:+ err);
       sink.executed := executed ++ executed';
       committed := false;
       batchLogged := (logged ++ logged') ++ deferredRollback tx |}.
Proof.
  intros Hpre Hevent. unfold writeBatchTx.
  assert ((length (pre ++ event :: post) =? 0)%nat = false) as ->.
  { apply Nat.eqb_neq. rewrite length_app. simpl. lia. }
  rewrite writeEvents_app, Hpre. simpl. by rewrite Hevent.
Qed.

(** X23.  writeBatch commits exactly when the batch is non-empty, the
    transaction could be begun, every event of the batch was written
    without error and Commit succeeded. *)
Theorem batch_commits_all_or_nothing p begin events :
  committed (writeBatchTx p begin events) = true
  <-> events <> []
      /\ exists tx, begin = inl tx
                    /\ (writeEvents p tx events).1.1 = None
                    /\ Commit tx = None.
Proof.
  unfold writeBatchTx. destruct events as [|event rest]; simpl.
  { split; [done|]. by intros [? _]. }
  destruct begin as [tx|err]; simpl.
  - destruct (writeEvent p tx event) as [[[err|] ex] lg] eqn:Hevent; simpl.
    + split; [done|]. intros [_ (tx' & [= <-] & Hw & _)].
      by rewrite Hevent in Hw.
    + destruct (writeEvents p tx rest) as [[[err|] ex1] lg1] eqn:Hrest; simpl.
      * split; [done|]. intros [_ (tx' & [= <-] & Hw & _)].
        by rewrite Hevent, Hrest in Hw.
      * destruct (Commit tx) eqn:Hcommit; simpl.
        -- split; [done|]. intros [_ (tx' & [= <-] & _ & Hc)]. congruence.
        -- split; [|done]. intros _. split; [done|]. exists tx.
           by rewrite Hevent, Hrest.
  - split; [done|]. by intros [_ (tx & ? & _)].
Qed.

(** *** What [writeEvent] executes *)

Lemma event_without_data_writes_nothing p tx event :
  pipeline.Data event = ∅ ->
  exists logged, writeEvent p tx event = (None, [], logged).
Proof.
  intros Hdata. unfold writeEvent, upsertEvent, insertEvent, deleteEvent.
  rewrite Hdata, map_to_list_empty, lookup_empty. simpl.
  destruct (_ =? "insert"); [by eexists|].
  destruct ((_ =? "update") || _); [by eexists|].
  destruct (_ =? "delete"); by eexists.
Qed.

(** X19.  A change document that carries neither fullDocument nor
    updateDescription becomes an event without data, and for such an
    event writeEvent executes no statement and returns no error,
    whatever its operation type, delete included. *)
Theorem change_without_document_is_not_written p tx m changeDoc now :
  changeDoc !! "fullDocument" = None ->
  changeDoc !! "updateDescription" = None ->
  exists logged,
    writeEvent p tx (source.convertChangeEvent m changeDoc now)
    = (None, [], logged).
Proof.
  intros Hfull Hdesc. apply event_without_data_writes_nothing.
  by apply change_without_document_has_no_data.
Qed.
End SinkFacts.

(** ** The reconciler *)

Section ReconcilerFacts2.
Context {L : GoLib}.
Import main.

(** X24.  The reconciler starts the backfill from a non-null cursor only
    when force is off, a timestamp field is configured, the sink table
    is known to be non-empty, and that cursor is the sink's latest
    timestamp for the field, retrieved without error. *)
Theorem incremental_only_from_sink_cursor sync pgSink ts logged :
  chooseFromTimestamp sync pgSink = inl (ts, logged) ->
  ts <> VNil ->
  config.ForceInitialSync sync = false
  /\ config.TimestampField sync <> ""
  /\ sink.IsTableEmpty pgSink = (false, None)
  /\ sink.GetLatestTimestamp pgSink (config.TimestampField sync) = (ts, None).
Proof.
  unfold chooseFromTimestamp.
  destruct (config.ForceInitialSync sync); [by intros [= <- _]|].
  destruct (config.TimestampField sync =? "") eqn:Hfield; simpl;
    [by intros [= <- _]|].
  apply String.eqb_neq in Hfield.
  destruct (sink.IsTableEmpty pgSink) as [isEmpty [err|]]; [done|].
  destruct isEmpty; [by intros [= <- _]|].
  destruct (sink.GetLatestTimestamp pgSink _) as [found [err|]];
    [by intros [= <- _]|].
  destruct (is_nil found) eqn:Hnil; simpl; [by intros [= <- _]|].
  by intros [= <- _] _.
Qed.

(** X25.  When the sink is non-empty but its latest-timestamp lookup
    fails (force off, field configured), the reconciler logs the warning
    and 'Falling back to full initial sync', and the backfill reads with
    an empty filter. *)
Theorem cursor_lookup_failure_falls_back cfg mongoSrc pgSink transformer x err :
  let sync := config.Sync (config.Pipeline cfg) in
  config.ForceInitialSync sync = false ->
  config.TimestampField sync <> "" ->
  sink.IsTableEmpty pgSink = (false, None) ->
  sink.GetLatestTimestamp pgSink (config.TimestampField sync) = (x, Some err) ->
  source.Connect mongoSrc = None ->
  sink.Connect pgSink = None ->
  chooseFromTimestamp sync pgSink
  = inl (VNil, ["Warning: failed to get latest timestamp from sink: " +:+ err;
                "Falling back to full initial sync"])
  /\ exists run,
       read (performInitialSync cfg (MongoDB mongoSrc) (PostgreSQL pgSink)
               transformer) = Some run
       /\ source.filter run = ∅.
Proof.
  intros sync Hforce Hfield Hempty Hlookup Hsrc Hsnk.
  apply String.eqb_neq in Hfield.
  assert (chooseFromTimestamp sync pgSink
          = inl (VNil, ["Warning: failed to get latest timestamp from sink: " +:+ err;
                        "Falling back to full initial sync"])) as Hchoice.
  { unfold chooseFromTimestamp. by rewrite Hforce, Hfield, Hempty, Hlookup. }
  split; [done|]. eexists. split.
  - by apply (performInitialSync_read _ _ _ _ VNil _ Hsrc Hsnk Hchoice).
  - match goal with
    | |- context [source.PerformInitialSync ?m ?c] =>
        destruct (PerformInitialSync_query m c) as [-> _]
    end.
    simpl. by rewrite andb_false_r.
Qed.

(** X26.  When the sink's emptiness check fails (force off, field
    configured, both connections up), performInitialSync returns 'failed
    to check if sink table is empty: <error>' without reading from the
    source or writing to the sink, and main does not start live capture. *)
Theorem emptiness_check_failure_is_fatal cfg src snk transformer b err :
  let sync := config.Sync (config.Pipeline cfg) in
  config.InitialSync sync = true ->
  config.ForceInitialSync sync = false ->
  config.TimestampField sync <> "" ->
  source.Connect src = None ->
  sink.Connect snk = None ->
  sink.IsTableEmpty snk = (b, Some err) ->
  let synced :=
    performInitialSync cfg (MongoDB src) (PostgreSQL snk) (Some transformer) in
  result synced = Some ("failed to check if sink table is empty: " +:+ err)
  /\ read synced = None
  /\ written synced = []
  /\ liveCapture (main.main cfg src snk transformer) = None.
Proof.
  intros sync Henabled Hforce Hfield Hsrc Hsnk Hempty synced.
  apply String.eqb_neq in Hfield.
  assert (synced
          = failedEarly ("failed to check if sink table is empty: " +:+ err))
    as Hsynced.
  { unfold synced, performInitialSync, chooseFromTimestamp. fold sync.
    by rewrite Hsrc, Hsnk, Hforce, Hfield, Hempty. }
  rewrite Hsynced. repeat split.
  unfold main.main. fold sync. rewrite Henabled. fold synced.
  by rewrite Hsynced.
Qed.

Lemma syncTransformWorker_sent transformer events :
  (syncTransformWorker transformer events).1
  = match transformer with
    | Some t => survivors t events
    | None => events
    end.
Proof.
  induction events as [|event rest IH]; simpl; [by destruct transformer|].
  destruct (syncTransformWorker transformer rest) as [sent logged]. simpl in IH.
  destruct transformer as [t|]; [|by rewrite IH].
  unfold survivors in *. simpl.
  destruct (pipeline.Transform t event) as [transformed [err|]]; simpl;
    by rewrite IH.
Qed.

Lemma performInitialSync_written cfg mongoSrc pgSink transformer run :
  let synced :=
    performInitialSync cfg (MongoDB mongoSrc) (PostgreSQL pgSink) transformer in
  read synced = Some run ->
  written synced
  = match transformer with
    | Some t => survivors t (source.events run)
    | None => source.events run
    end.
Proof.
  unfold performInitialSync.
  destruct (source.Connect mongoSrc); [done|].
  destruct (sink.Connect pgSink); [done|].
  destruct (chooseFromTimestamp _ _) as [[fromTimestamp logged]|]; [|done].
  match goal with
  | |- context [syncTransformWorker ?t ?es] =>
      pose proof (syncTransformWorker_sent t es) as Hsent;
      destruct (syncTransformWorker t es) as [sent tlog]
  end.
  destruct (drainErrors _ (source.errors _) _) as [a alog].
  destruct (drainErrors _ (sink.Write _ _) _) as [b' blog].
  simpl in *. by intros [= <-].
Qed.

(** X27.  Whenever the backfill reads from the source, the events handed
    to the sink are exactly the source's events on which the transformer
    does not fail, transformed, in order; without a transformer they are
    the source's events. *)
Theorem backfill_writes_transformed_events cfg mongoSrc pgSink transformer run :
  let synced :=
    performInitialSync cfg (MongoDB mongoSrc) (PostgreSQL pgSink) transformer in
  read synced = Some run ->
  written synced
  = match transformer with
    | Some t => survivors t (source.events run)
    | None => source.events run
    end.
Proof. apply performInitialSync_written. Qed.

(** X28.  When the backfill query itself fails, no event is emitted or
    handed to the sink, performInitialSync returns an error, and main
    does not start live capture. *)
Theorem failed_query_aborts_startup cfg src snk transformer run err :
  config.InitialSync (config.Sync (config.Pipeline cfg)) = true ->
  let synced :=
    performInitialSync cfg (MongoDB src) (PostgreSQL snk) (Some transformer) in
  read synced = Some run ->
  source.Find src (source.filter run) (source.opts run) = inr err ->
  source.events run = []
  /\ written synced = []
  /\ is_Some (result synced)
  /\ liveCapture (main.main cfg src snk transformer) = None.
Proof.
  intros Henabled synced Hread Hfind.
  pose proof (performInitialSync_written cfg src snk (Some transformer)
                run Hread) as Hwritten. fold synced in Hwritten.
  pose proof (performInitialSync_result cfg src snk (Some transformer) run Hread)
    as Hresult. fold synced in Hresult.
  assert (source.events run = []
          /\ source.errors run
             = ["failed to query MongoDB for initial sync: " +:+ err])
    as [Hevents Herrors].
  { revert Hread Hfind. unfold synced, performInitialSync.
    destruct (source.Connect src); [done|].
    destruct (sink.Connect snk); [done|].
    destruct (chooseFromTimestamp _ _) as [[fromTimestamp logged]|]; [|done].
    destruct (syncTransformWorker _ _) as [sent tlog].
    destruct (drainErrors _ (source.errors _) _) as [a alog].
    destruct (drainErrors _ (sink.Write _ _) _) as [b' blog].
    simpl. intros [= <-].
    match goal with
    | |- context [source.PerformInitialSync ?m ?c] =>
        destruct (PerformInitialSync_query m c) as [Hf Ho]
    end.
    rewrite Hf, Ho. unfold source.PerformInitialSync. cbv zeta.
    intros ->. done. }
  rewrite Hevents in Hwritten. simpl in Hwritten.
  rewrite Herrors in Hresult. simpl in Hresult.
  split; [done|]. split; [done|]. split; [by rewrite Hresult|].
  unfold main.main. rewrite Henabled. fold synced. by rewrite Hresult.
Qed.

End ReconcilerFacts2.

(** ** The further properties on sample inputs *)

Section MoreConcrete.
Import Examples MoreExamples.
#[local] Existing Instance Reference.lib.

(** X1, on a sample input. *)
Lemma no_rules_include_all_witness :
  transform.Mappings (transform.config copyMapper) = []
  /\ transform.IncludeAll (transform.config copyMapper) = true
  /\ exists out,
       transform.Transform copyMapper secretEvent
       = (pipeline.set_Data secretEvent out, None)
       /\ out !! "password" = None
       /\ out !! "name" = Some (VString "Ann").
Proof.
  split; [reflexivity|]. split; [reflexivity|].
  destruct (no_rules_include_all copyMapper secretEvent eq_refl eq_refl)
    as (out & Hout & Hkeys & _).
  exists out. split; [exact Hout|]. split.
  - rewrite Hkeys. destruct (decide _) as [|Hnot]; [done|].
    exfalso. apply Hnot. by left.
  - rewrite Hkeys. destruct (decide _) as [Hin|]; [|reflexivity].
    simpl in Hin. apply list_elem_of_singleton in Hin. discriminate Hin.
Defined.

(** X2, on a sample input. *)
Lemma nonstrict_never_fails_witness :
  transform.StrictMode (transform.config lenientMapper) = false
  /\ (transform.Transform lenientMapper namedEvent).2 = None.
Proof.
  split; [reflexivity|].
  by apply (nonstrict_never_fails lenientMapper namedEvent).
Defined.

(** X3, on a sample input. *)
Lemma output_keys_are_destinations_witness :
  transform.Transform lenientMapper namedEvent
  = (pipeline.set_Data namedEvent (<["full_name" := VString "Ann"]> ∅), None)
  /\ exists mapping,
       mapping ∈ transform.Mappings (transform.config lenientMapper)
       /\ "full_name" = destName mapping.
Proof.
  assert (transform.Transform lenientMapper namedEvent
          = (pipeline.set_Data namedEvent (<["full_name" := VString "Ann"]> ∅), None))
    as H by reflexivity.
  split; [exact H|].
  apply (output_keys_are_destinations lenientMapper namedEvent _ "full_name"
           eq_refl H).
  simpl. rewrite lookup_insert_eq. by eexists.
Defined.

(** X4, on a sample input. *)
Lemma excluded_field_never_copied_witness :
  ("password" ∈ transform.ExcludeFields (transform.config copyMapper))
  /\ pipeline.Data (transform.Transform copyMapper secretEvent).1 !! "password"
     = None.
Proof.
  assert ("password" ∈ transform.ExcludeFields (transform.config copyMapper))
    as Hin by (by left).
  split; [exact Hin|].
  apply (excluded_field_never_copied copyMapper secretEvent
           (transform.Transform copyMapper secretEvent).1 "password" Hin).
  - intros mapping Hm. simpl in Hm. by apply elem_of_nil in Hm.
  - reflexivity.
Defined.

(** X5, on a sample input. *)
Lemma null_is_missing_witness :
  Forall (fun mapping => transform.NestedPath mapping = "")
    (transform.Mappings strictRules)
  /\ transform.applyMappings strictMapper
       (<["id" := VNil]> (pipeline.Data namedEvent))
       (transform.Mappings strictRules) start
     = inr "required field 'id' is missing".
Proof.
  assert (Forall (fun mapping => transform.NestedPath mapping = "")
            (transform.Mappings strictRules)) as Hpaths
    by (repeat constructor).
  split; [exact Hpaths|].
  rewrite (null_is_missing strictMapper (pipeline.Data namedEvent)
             (transform.Mappings strictRules) start "id" Hpaths).
  reflexivity.
Defined.

(** X6, on a sample input. *)
Lemma present_value_ignores_default_witness :
  (<["count" := VInt 0]> ∅ : gmap string value) !! "count" = Some (VInt 0)
  /\ transform.applyMapping copyMapper (<["count" := VInt 0]> ∅) start
       (withDefault "1" countRule)
     = inl {| transform.newData := <["count" := VInt 0]> ∅;
              transform.errors := [] |}.
Proof.
  assert ((<["count" := VInt 0]> ∅ : gmap string value) !! "count"
          = Some (VInt 0)) as Hcount by reflexivity.
  split; [exact Hcount|].
  rewrite (present_value_ignores_default copyMapper (<["count" := VInt 0]> ∅)
             start countRule (VInt 0) "1" eq_refl Hcount); [reflexivity|done].
Defined.

(** X7, on a sample input. *)
Lemma later_rule_overwrites_witness :
  transform.applyMappings copyMapper (pipeline.Data renameEvent)
    [rename "a" "x"] start
  = inl {| transform.newData := <["x" := VInt 1]> ∅; transform.errors := [] |}
  /\ exists st2,
       transform.applyMappings copyMapper (pipeline.Data renameEvent)
         ([rename "a" "x"] ++ [rename "b" "x"]) start = inl st2
       /\ transform.newData st2 !! "x" = Some (VInt 2).
Proof.
  assert (transform.applyMappings copyMapper (pipeline.Data renameEvent)
            [rename "a" "x"] start
          = inl {| transform.newData := <["x" := VInt 1]> ∅;
                   transform.errors := [] |}) as Hrun by reflexivity.
  split; [exact Hrun|].
  assert (pipeline.Data renameEvent !! "b" = Some (VInt 2)) as Hb by reflexivity.
  assert (transform.extractors copyMapper !! "b" = None) as Hnone by reflexivity.
  destruct (later_rule_overwrites copyMapper (pipeline.Data renameEvent)
              [rename "a" "x"] (rename "b" "x") start _ (VInt 2)
              eq_refl Hb ltac:(discriminate) Hnone eq_refl Hrun)
    as (st2 & Hall & Hx & _).
  by exists st2.
Defined.

(** X9, on a sample input. *)
Lemma distinct_sources_keep_own_pattern_witness :
  let rules :=
    {| transform.Mappings :=
         [extract "email" "username" "^([^@]+)@"; extract "site" "host" "//(.+)$"];
       transform.IncludeAll := false;
       transform.ExcludeFields := [];
       transform.StrictMode := false |} in
  NoDup (map transform.Source (withPattern (transform.Mappings rules)))
  /\ exists f re,
       transform.NewFieldMapper rules = inl f
       /\ regexp_Compile "^([^@]+)@" = inl re
       /\ transform.extractors f !! "email" = Some re.
Proof.
  intros rules.
  assert (NoDup (map transform.Source (withPattern (transform.Mappings rules))))
    as Hdup.
  { simpl. apply NoDup_cons. split.
    - intros Hin. apply list_elem_of_singleton in Hin. discriminate Hin.
    - apply NoDup_singleton. }
  split; [exact Hdup|].
  destruct (transform.NewFieldMapper rules) as [f|] eqn:Hf; [|discriminate Hf].
  destruct (distinct_sources_keep_own_pattern rules f
              (extract "email" "username" "^([^@]+)@") Hf Hdup) as [Hown _].
  destruct Hown as (re & Hre & Hlookup); [by left|].
  by exists f, re.
Defined.

(** X10, on a sample input. *)
Lemma nested_path_composes_witness :
  "address" <> "" /\ "city" <> ""
  /\ transform.getFieldValue nestedData "user" "address.city"
     = (VString "Oslo", true).
Proof.
  split; [discriminate|]. split; [discriminate|].
  change "address.city" with ("address" +:+ "." +:+ "city").
  rewrite (nested_path_composes nestedData "user" "address" "city");
    [reflexivity|discriminate|discriminate].
Defined.

End MoreConcrete.

Section MoreConcrete2.
Import Examples MoreExamples.
#[local] Existing Instance Reference.lib.

(** X13, on a sample input. *)
Lemma every_event_sent_or_logged_witness :
  pipeline.Source_Connect (pipeline.source fakePipeline) = None
  /\ pipeline.Sink_Connect (pipeline.sink fakePipeline) = None
  /\ (length (pipeline.toSink (pipeline.Run fakePipeline))
      + length (List.filter isLog
                  (pipeline.transformEffects (pipeline.Run fakePipeline))))%nat
     = 2%nat.
Proof.
  split; [reflexivity|]. split; [reflexivity|].
  exact (every_event_sent_or_logged fakePipeline eq_refl eq_refl).
Defined.

(** X14, on a sample input. *)
Lemma unfailing_transformer_forwards_all_witness :
  let p :=
    pipeline.New "users" (fakeSource [namedEvent; emailEvent] [])
      (fakeSink []) (Some transform.PassThroughTransformer) in
  pipeline.Source_Connect (pipeline.source p) = None
  /\ pipeline.Sink_Connect (pipeline.sink p) = None
  /\ pipeline.toSink (pipeline.Run p) = [namedEvent; emailEvent].
Proof.
  intros p. split; [reflexivity|]. split; [reflexivity|].
  rewrite (unfailing_transformer_forwards_all p eq_refl eq_refl); [reflexivity|].
  intros event _. reflexivity.
Defined.

(** X15, on a sample input. *)
Lemma initial_sync_one_event_per_document_witness :
  let src := serverWith (oneUser ++ [inr "bad document"]) None in
  let config :=
    {| source.Enabled := true; source.TimestampField := "";
       source.FromTimestamp := VNil; source.BatchSize := 0 |} in
  let run := source.PerformInitialSync src config in
  (exists cursor,
     source.Find src (source.filter run) (source.opts run) = inl cursor)
  /\ map pipeline.Data (source.events run)
     = [<["_id" := VInt 7]> (<["name" := VString "Ann"]> ∅)]
  /\ source.errors run = ["failed to decode document: bad document"].
Proof.
  intros src config run.
  pose (cursor :=
    {| source.documents :=
         map (fun d => (d, newYear)) (oneUser ++ [inr "bad document"]);
       source.cursorErr := None |}).
  assert (source.Find src (source.filter run) (source.opts run) = inl cursor)
    as Hfind by reflexivity.
  split; [by exists cursor|].
  destruct (initial_sync_one_event_per_document src config cursor Hfind)
    as (Hdata & Herrors & _).
  split; [exact Hdata|exact Herrors].
Defined.

(** X17, on a sample input. *)
Lemma updated_fields_overlay_full_document_witness :
  (exists full desc updated,
     updateChange !! "fullDocument" = Some (VMap full)
     /\ updateChange !! "updateDescription" = Some (VMap desc)
     /\ desc !! "updatedFields" = Some (VMap updated))
  /\ pipeline.Data (source.convertChangeEvent (serverWith [] None)
                      updateChange newYear) !! "age" = Some (VInt 31)
  /\ pipeline.Data (source.convertChangeEvent (serverWith [] None)
                      updateChange newYear) !! "name" = Some (VString "Ann").
Proof.
  pose (full := (<["name" := VString "Ann"]> (<["age" := VInt 30]> ∅))
                : gmap string value).
  pose (updated := (<["age" := VInt 31]> ∅) : gmap string value).
  pose (desc := (<["updatedFields" := VMap updated]> ∅) : gmap string value).
  assert (updateChange !! "fullDocument" = Some (VMap full)) as Hfull
    by reflexivity.
  assert (updateChange !! "updateDescription" = Some (VMap desc)) as Hdesc
    by reflexivity.
  assert (desc !! "updatedFields" = Some (VMap updated)) as Hupdated
    by reflexivity.
  split; [by exists full, desc, updated|]. split.
  - rewrite (updated_fields_overlay_full_document (serverWith [] None)
               updateChange newYear full desc updated "age" Hfull Hdesc Hupdated).
    reflexivity.
  - rewrite (updated_fields_overlay_full_document (serverWith [] None)
               updateChange newYear full desc updated "name" Hfull Hdesc Hupdated).
    reflexivity.
Defined.

(** X19, on a sample input. *)
Lemma change_without_document_is_not_written_witness :
  deleteChange !! "fullDocument" = None
  /\ deleteChange !! "updateDescription" = None
  /\ pipeline.Operation
       (source.convertChangeEvent (serverWith [] None) deleteChange newYear)
     = "delete"
  /\ exists logged,
       sink.writeEvent smallBatches goodTx
         (source.convertChangeEvent (serverWith [] None) deleteChange newYear)
       = (None, [], logged).
Proof.
  split; [reflexivity|]. split; [reflexivity|]. split; [reflexivity|].
  apply (change_without_document_is_not_written smallBatches goodTx
           (serverWith [] None) deleteChange newYear); reflexivity.
Defined.

(** X20, on a sample input. *)
Lemma write_batches_partition_events_witness :
  let events := [namedEvent; emailEvent; renameEvent] in
  (0 < sink.batchSize smallBatches)%nat
  /\ sink.batchesOf 2 events [] = [[namedEvent; emailEvent]; [renameEvent]]
  /\ concat (sink.batchesOf (sink.batchSize smallBatches) events []) = events.
Proof.
  intros events.
  assert (0 < sink.batchSize smallBatches)%nat as Hsize by (simpl; lia).
  split; [exact Hsize|]. split; [reflexivity|].
  by destruct (write_batches_partition_events smallBatches events Hsize)
    as (_ & Hconcat & _).
Defined.

(** X21, on a sample input. *)
Lemma invalid_names_rejected_unasked_witness :
  sink.validTableName "updated_at; DROP TABLE users" = false
  /\ is_Some (sink.GetLatestTimestamp (tableWith 3 (sink.Row (VInt 100)))
                "updated_at; DROP TABLE users").2.
Proof.
  assert (sink.validTableName "updated_at; DROP TABLE users" = false) as Hbad
    by reflexivity.
  split; [exact Hbad|].
  destruct (invalid_names_rejected_unasked (tableWith 3 (sink.Row (VInt 100)))
              (tableWith 0 sink.NoRows) "updated_at; DROP TABLE users" eq_refl)
    as [_ Hfield].
  by destruct (Hfield Hbad).
Defined.

(** X22, on a sample input. *)
Lemma failed_event_aborts_batch_witness :
  let stmt :=
    sink.insertStatement "users" (map_to_list (pipeline.Data namedEvent)) in
  sink.writeEvent smallBatches badTx namedEvent
  = (Some "constraint violated", [stmt], [])
  /\ sink.committed (sink.writeBatchTx smallBatches (inl badTx)
                       [namedEvent; emailEvent]) = false
  /\ sink.executed (sink.writeBatchTx smallBatches (inl badTx)
                      [namedEvent; emailEvent]) = [stmt].
Proof.
  intros stmt.
  assert (sink.writeEvent smallBatches badTx namedEvent
          = (Some "constraint violated", [stmt], [])) as Hevent by reflexivity.
  split; [exact Hevent|].
  change [namedEvent; emailEvent] with ([] ++ namedEvent :: [emailEvent]).
  rewrite (failed_event_aborts_batch smallBatches badTx [] namedEvent
             [emailEvent] [] [] _ _ _ eq_refl Hevent).
  split; reflexivity.
Defined.

(** X24, on a sample input. *)
Lemma incremental_only_from_sink_cursor_witness :
  let sync := config.Sync (config.Pipeline (syncSettings false "updated_at" 0)) in
  let snk := tableWith 3 (sink.Row (VInt 100)) in
  main.chooseFromTimestamp sync snk
  = inl (VInt 100, ["Starting incremental initial sync from timestamp: 100"])
  /\ sink.IsTableEmpty snk = (false, None)
  /\ sink.GetLatestTimestamp snk "updated_at" = (VInt 100, None).
Proof.
  intros sync snk.
  assert (main.chooseFromTimestamp sync snk
          = inl (VInt 100, ["Starting incremental initial sync from timestamp: 100"]))
    as Hchoice by reflexivity.
  split; [exact Hchoice|].
  destruct (incremental_only_from_sink_cursor sync snk (VInt 100) _ Hchoice)
    as (_ & _ & Hempty & Hlatest); [discriminate|].
  split; [exact Hempty|exact Hlatest].
Defined.

(** X25, on a sample input. *)
Lemma cursor_lookup_failure_falls_back_witness :
  let cfg := syncSettings false "updated_at" 0 in
  let snk := tableWith 3 (sink.ScanError "connection reset") in
  sink.GetLatestTimestamp snk "updated_at"
  = (VNil, Some "failed to get latest timestamp: connection reset")
  /\ exists run,
       main.read (main.performInitialSync cfg
                    (main.MongoDB (serverWith oneUser None))
                    (main.PostgreSQL snk)
                    (Some transform.PassThroughTransformer)) = Some run
       /\ source.filter run = ∅.
Proof.
  intros cfg snk.
  assert (sink.GetLatestTimestamp snk "updated_at"
          = (VNil, Some "failed to get latest timestamp: connection reset"))
    as Hlookup by reflexivity.
  split; [exact Hlookup|].
  destruct (cursor_lookup_failure_falls_back cfg (serverWith oneUser None) snk
              (Some transform.PassThroughTransformer) VNil _
              eq_refl ltac:(discriminate) eq_refl Hlookup eq_refl eq_refl)
    as [_ Hread].
  exact Hread.
Defined.

(** X26, on a sample input. *)
Lemma emptiness_check_failure_is_fatal_witness :
  let cfg := syncSettings false "updated_at" 0 in
  sink.IsTableEmpty brokenTable
  = (false, Some "failed to check if table is empty: timeout")
  /\ main.liveCapture
       (main.main cfg (serverWith oneUser None) brokenTable
          transform.PassThroughTransformer) = None.
Proof.
  intros cfg.
  assert (sink.IsTableEmpty brokenTable
          = (false, Some "failed to check if table is empty: timeout"))
    as Hempty by reflexivity.
  split; [exact Hempty|].
  by destruct (emptiness_check_failure_is_fatal cfg (serverWith oneUser None)
                 brokenTable transform.PassThroughTransformer false _
                 eq_refl eq_refl ltac:(discriminate) eq_refl eq_refl Hempty)
    as (_ & _ & _ & Hlive).
Defined.

(** X27, on a sample input. *)
Lemma backfill_writes_transformed_events_witness :
  let cfg := syncSettings true "" 0 in
  let src :=
    serverWith [inl (<["id" := VInt 1]> (<["name" := VString "Ann"]> ∅));
                inl (<["name" := VString "Bob"]> ∅)] None in
  let synced :=
    main.performInitialSync cfg (main.MongoDB src)
      (main.PostgreSQL (tableWith 0 sink.NoRows))
      (Some (transform.asTransformer strictMapper)) in
  (exists run, main.read synced = Some run
               /\ length (source.events run) = 2%nat)
  /\ map pipeline.Data (main.written synced)
     = [<["name" := VString "Ann"]> (<["id" := VInt 1]> ∅)].
Proof.
  intros cfg src synced.
  destruct (main.read synced) as [run|] eqn:Hread; [|discriminate Hread].
  assert (length (source.events run) = 2%nat) as Hlen.
  { revert Hread. unfold synced. intros [= <-]. reflexivity. }
  split; [by exists run|].
  pose proof (backfill_writes_transformed_events cfg src
                (tableWith 0 sink.NoRows)
                (Some (transform.asTransformer strictMapper)) run Hread) as Hw.
  fold synced in Hw. rewrite Hw.
  revert Hread. unfold synced. intros [= <-]. reflexivity.
Defined.

(** X28, on a sample input. *)
Lemma failed_query_aborts_startup_witness :
  let cfg := syncSettings true "" 0 in
  let synced :=
    main.performInitialSync cfg (main.MongoDB downServer)
      (main.PostgreSQL (tableWith 0 sink.NoRows))
      (Some transform.PassThroughTransformer) in
  (exists run, main.read synced = Some run
               /\ source.Find downServer (source.filter run) (source.opts run)
                  = inr "no reachable servers")
  /\ main.written synced = []
  /\ main.liveCapture
       (main.main cfg downServer (tableWith 0 sink.NoRows)
          transform.PassThroughTransformer) = None.
Proof.
  intros cfg synced.
  destruct (main.read synced) as [run|] eqn:Hread; [|discriminate Hread].
  assert (source.Find downServer (source.filter run) (source.opts run)
          = inr "no reachable servers") as Hfind by reflexivity.
  split; [by exists run|].
  destruct (failed_query_aborts_startup cfg downServer (tableWith 0 sink.NoRows)
              transform.PassThroughTransformer run _ eq_refl Hread Hfind)
    as (_ & Hwritten & _ & Hlive).
  split; [exact Hwritten|exact Hlive].
Defined.
End MoreConcrete2.

Section MoreConcrete3.
Import Examples MoreExamples.
#[local] Existing Instance Reference.lib.

(** X8, on a sample input. *)
Lemma construction_checks_patterns_witness :
  (forall mapping, mapping ∈ withPattern (transform.Mappings emailRules) ->
     exists re, regexp_Compile (transform.Extract mapping) = inl re)
  /\ transform.config emailMapper = emailRules.
Proof.
  assert (transform.NewFieldMapper emailRules = inl emailMapper) as Hnew
    by reflexivity.
  destruct (construction_checks_patterns emailRules) as [Hiff Hconfig].
  split.
  - apply Hiff. by exists emailMapper.
  - by apply Hconfig.
Defined.

(** X12, on a sample input. *)
Lemma connections_closed_once_witness :
  pipeline.Source_Connect (pipeline.source fakePipeline) = None
  /\ pipeline.Sink_Connect (pipeline.sink fakePipeline) = None
  /\ exists between after,
       pipeline.deferred (pipeline.Run fakePipeline)
       = pipeline.CloseSink :: between ++ pipeline.CloseSource :: after.
Proof.
  assert (pipeline.Source_Connect (pipeline.source fakePipeline) = None)
    as Hsource by reflexivity.
  assert (pipeline.Sink_Connect (pipeline.sink fakePipeline) = None)
    as Hsink by reflexivity.
  split; [exact Hsource|]. split; [exact Hsink|].
  destruct (connections_closed_once fakePipeline) as (_ & _ & Horder).
  by apply Horder.
Defined.

(** X16, on a sample input. *)
Lemma batch_size_requested_witness :
  let config :=
    {| source.Enabled := true; source.TimestampField := "";
       source.FromTimestamp := VNil; source.BatchSize := 500 |} in
  (0 < source.BatchSize config < 2 ^ 31)%Z
  /\ source.OptBatchSize
       (source.opts (source.PerformInitialSync (serverWith oneUser None) config))
     = 500%Z.
Proof.
  intros config.
  assert (0 < source.BatchSize config < 2 ^ 31)%Z as Hin by (simpl; lia).
  split; [exact Hin|].
  destruct (batch_size_requested (serverWith oneUser None) config)
    as (_ & _ & Hsame).
  by apply Hsame.
Defined.

(** X23, on a sample input. *)
Lemma batch_commits_all_or_nothing_witness :
  sink.committed (sink.writeBatchTx smallBatches (inl goodTx)
                    [namedEvent; emailEvent]) = true.
Proof.
  apply batch_commits_all_or_nothing. split; [done|].
  exists goodTx. split; [reflexivity|]. split; reflexivity.
Defined.
End MoreConcrete3.
